(** * GameVerse Hub core: game discovery, catalog merge, profile statistics

    A shallow embedding of [core/game_discovery.py] (class [GameDiscovery])
    and [core/profile_manager.py] (class [ProfileManager]), followed by the
    properties established about them.

    Conventions of the embedding.
    - Python [str] is [string]; the model covers ASCII text (code points
      below 128), where [str.lower], [str.strip] and [str.title] act on the
      ASCII letters and the ASCII white space only. A statement whose
      content depends on these functions carries the hypothesis that its
      texts are ASCII ([isascii]).
    - Python [int] is [Z]; counters that start at 0 and are only ever
      incremented are [nat]. A number that may be an [int] or a [float]
      keeps that distinction ([number]); a finite float is represented by
      the rational it stands for (compared with [==]). The conversion of
      an [int] to a [float] and the true division of two [int]s raise
      [OverflowError] exactly where Python does; the rounding of a float
      operation is not modelled.
    - A JSON object with an open set of keys is a [gmap string _]; a dict
      whose iteration order is observed is an insertion-ordered association
      list; dicts with a fixed set of keys are records.
    - [datetime.now()] is an input: every operation that reads the clock
      takes the formatted time stamps it would obtain.
    - Writing a document to disk ([_save_profile], [_save_stats]) does not
      feed back into the in-memory state, apart from the [last_active]
      field that [_save_profile] sets. *)

From Stdlib Require Import String Ascii List ZArith QArith Lia Bool.
From stdpp Require Import gmap strings list sorting.

Set Default Proof Using "Type".

(** ** Python string primitives *)

Module PyStr.

(** [s.isascii()]: every character is below 128. *)
Definition isascii_char (c : ascii) : bool := nat_of_ascii c <? 128.

Fixpoint isascii (s : string) : bool :=
  match s with
  | EmptyString => true
  | String c r => isascii_char c && isascii r
  end.

(** [c.isspace()] on ASCII: TAB, LF, VT, FF, CR, FS, GS, RS, US, space. *)
Definition is_space (c : ascii) : bool :=
  let n := nat_of_ascii c in
  ((9 <=? n) && (n <=? 13)) || ((28 <=? n) && (n <=? 32)).

Definition is_upper (c : ascii) : bool :=
  let n := nat_of_ascii c in (65 <=? n) && (n <=? 90).

Definition is_lower (c : ascii) : bool :=
  let n := nat_of_ascii c in (97 <=? n) && (n <=? 122).

Definition is_cased (c : ascii) : bool := is_upper c || is_lower c.

Definition lower_char (c : ascii) : ascii :=
  if is_upper c then ascii_of_nat (nat_of_ascii c + 32) else c.

Definition upper_char (c : ascii) : ascii :=
  if is_lower c then ascii_of_nat (nat_of_ascii c - 32) else c.

Fixpoint map_chars (f : ascii -> ascii) (s : string) : string :=
  match s with
  | EmptyString => EmptyString
  | String c r => String (f c) (map_chars f r)
  end.

(** [s.lower()] *)
Definition lower (s : string) : string := map_chars lower_char s.

(** [s.replace(a, b)] for one-character [a] and [b]. *)
Definition replace_char (a b : ascii) (s : string) : string :=
  map_chars (fun c => if Ascii.eqb c a then b else c) s.

(** [s.title()]: a cased character is upper-cased when the character
    before it is not cased, and lower-cased otherwise. *)
Fixpoint title_from (prev_cased : bool) (s : string) : string :=
  match s with
  | EmptyString => EmptyString
  | String c r =>
      let c' := if prev_cased then lower_char c else upper_char c in
      String c' (title_from (is_cased c) r)
  end.

Definition title (s : string) : string := title_from false s.

(** [s.lstrip(chars)], [s.rstrip(chars)], [s.strip(chars)], with the set
    of characters given as a predicate. *)
Fixpoint lstrip_by (p : ascii -> bool) (s : string) : string :=
  match s with
  | EmptyString => EmptyString
  | String c r => if p c then lstrip_by p r else s
  end.

Fixpoint rstrip_by (p : ascii -> bool) (s : string) : string :=
  match s with
  | EmptyString => EmptyString
  | String c r =>
      match rstrip_by p r with
      | EmptyString => if p c then EmptyString else String c EmptyString
      | r' => String c r'
      end
  end.

Definition strip_by (p : ascii -> bool) (s : string) : string :=
  rstrip_by p (lstrip_by p s).

(** [s.strip()] *)
Definition strip (s : string) : string := strip_by is_space s.

Fixpoint mem_char (c : ascii) (cs : string) : bool :=
  match cs with
  | EmptyString => false
  | String d r => Ascii.eqb c d || mem_char c r
  end.

(** [s.strip(chars)] *)
Definition strip_chars (chars : string) (s : string) : string :=
  strip_by (fun c => mem_char c chars) s.

(** [s.startswith(p)], [s.endswith(p)] *)
Definition startswith (s p : string) : bool := String.prefix p s.

Fixpoint drop (n : nat) (s : string) : string :=
  match n, s with
  | O, _ => s
  | S _, EmptyString => EmptyString
  | S n', String _ r => drop n' r
  end.

Definition endswith (s p : string) : bool :=
  (String.length p <=? String.length s) &&
  String.eqb (drop (String.length s - String.length p) s) p.

(** [sub in s] *)
Fixpoint contains (sub s : string) : bool :=
  String.prefix sub s ||
  match s with
  | EmptyString => false
  | String _ r => contains sub r
  end.

(** [s.find(sub)]; [None] stands for Python's [-1]. *)
Fixpoint find (sub s : string) : option nat :=
  if String.prefix sub s then Some O
  else match s with
       | EmptyString => None
       | String _ r => option_map S (find sub r)
       end.

(** [s[a:b]] for [0 <= a <= b]. *)
Definition slice (a b : nat) (s : string) : string := substring a (b - a) s.

(** [s[:-n]] for [n > 0]. *)
Definition drop_last (n : nat) (s : string) : string :=
  substring 0 (String.length s - n) s.

(** [s.split(sep)] for a one-character [sep]. *)
Fixpoint split_on (sep : ascii) (s : string) : list string :=
  match s with
  | EmptyString => [EmptyString]
  | String c r =>
      if Ascii.eqb c sep then EmptyString :: split_on sep r
      else match split_on sep r with
           | h :: t => String c h :: t
           | [] => [String c EmptyString]
           end
  end.

(** [s.split(sep, 1)] for a one-character [sep]. *)
Fixpoint split1 (sep : ascii) (s : string) : list string :=
  match s with
  | EmptyString => [EmptyString]
  | String c r =>
      if Ascii.eqb c sep then [EmptyString; r]
      else match split1 sep r with
           | h :: t => String c h :: t
           | [] => [String c EmptyString]
           end
  end.

(** [s.split()]: the maximal runs of characters that are not white space. *)
Fixpoint split_ws_from (cur : string) (s : string) : list string :=
  match s with
  | EmptyString => match cur with EmptyString => [] | _ => [cur] end
  | String c r =>
      if is_space c
      then match cur with
           | EmptyString => split_ws_from EmptyString r
           | _ => cur :: split_ws_from EmptyString r
           end
      else split_ws_from (cur +:+ String c EmptyString) r
  end.

Definition split_ws (s : string) : list string := split_ws_from EmptyString s.

(** [sep.join(parts)] *)
Definition join (sep : string) (parts : list string) : string :=
  String.concat sep parts.

(** [l[i]] on a list of strings, where the code has made sure that the
    index exists. *)
Definition item (i : nat) (l : list string) : string := nth i l EmptyString.

(** [PurePath(name).stem]: the name up to its last dot, unless that dot
    is the first or the last character. *)
Fixpoint rfind_char (c : ascii) (s : string) : option nat :=
  match s with
  | EmptyString => None
  | String d r =>
      match rfind_char c r with
      | Some i => Some (S i)
      | None => if Ascii.eqb d c then Some O else None
      end
  end.

Definition stem (name : string) : string :=
  match rfind_char "." name with
  | Some i =>
      if (0 <? i) && (i <? String.length name - 1)
      then substring 0 i name else name
  | None => name
  end.

End PyStr.

(** ** Values, exceptions and computations that may raise *)

(** The JSON values that occur in catalog entries. Lists hold strings
    (tags, requirements, achievements). *)
Inductive value :=
| VNone
| VBool (b : bool)
| VInt (z : Z)
| VFloat (q : Q)
| VStr (s : string)
| VList (l : list string).

(** A catalog entry (a Python dict with string keys). *)
Abbreviation game := (gmap string value).

Inductive exn :=
| KeyError (key : string)
| TypeError
| SyntaxError
| ValueError
| OSError
| UnicodeDecodeError
| UnicodeEncodeError
| OverflowError
| ZeroDivisionError.

Inductive result (A : Type) :=
| Ok (a : A)
| Raise (e : exn).
Arguments Ok {A} a.
Arguments Raise {A} e.

Definition bind {A B} (r : result A) (k : A -> result B) : result B :=
  match r with
  | Ok a => k a
  | Raise e => Raise e
  end.

Notation "'let*' x := r 'in' k" := (bind r (fun x => k))
  (at level 10, x name, r at level 100, k at level 200).

(** Python's [==] on these values: numbers (and booleans) compare by
    numeric value, everything else structurally. *)
Definition num_of (v : value) : option Q :=
  match v with
  | VBool b => Some (if b then 1%Q else 0%Q)
  | VInt z => Some (inject_Z z)
  | VFloat q => Some q
  | _ => None
  end.

Definition py_eq (v w : value) : bool :=
  match num_of v, num_of w with
  | Some a, Some b => Qeq_bool a b
  | None, None =>
      match v, w with
      | VNone, VNone => true
      | VStr s, VStr t => String.eqb s t
      | VList l, VList m => bool_decide (l = m)
      | _, _ => false
      end
  | _, _ => false
  end.

(** Lists are the only unhashable values. *)
Definition hashable (v : value) : bool :=
  match v with
  | VList _ => false
  | _ => true
  end.

(** [l[:k]] for any integer [k]. *)
Definition py_take {A} (k : Z) (l : list A) : list A :=
  if (0 <=? k)%Z then take (Z.to_nat k) l
  else take (length l - Z.to_nat (- k)) l.

(** ** core/game_discovery.py *)

Module GameDiscovery.
Import PyStr.

Definition dquote : ascii := "034"%char.
Definition squote : ascii := "039"%char.
Definition newline : ascii := "010"%char.
Definition triple (c : ascii) : string :=
  String c (String c (String c EmptyString)).

(** The [for line in lines[:20]] loop of [_extract_title]; [None] when
    the loop ends without returning. *)
Fixpoint title_from_comments (lines : list string) : option string :=
  match lines with
  | [] => None
  | line :: rest =>
      let line := strip line in
      if startswith line "#" &&
         (contains "title" (lower line) || contains "name" (lower line))
      then
        if contains ":" line then Some (strip (item 1 (split1 ":" line)))
        else if contains "-" line then Some (strip (item 1 (split1 "-" line)))
        else title_from_comments rest
      else title_from_comments rest
  end.

(** The [if 'TITLE' in content] block of [_extract_title]; [None] when
    control falls through to the default. *)
Definition title_from_variable (content : string) : option string :=
  if contains "TITLE" content then
    match find "TITLE" content with
    | Some start =>
        let line := item 0 (split_on newline (slice start (start + 100) content)) in
        if contains "=" line
        then Some (strip_chars (String dquote (String squote EmptyString))
                     (strip (item 1 (split1 "=" line))))
        else None
    | None => None
    end
  else None.

Definition _extract_title (content filename : string) : string :=
  let lines := split_on newline content in
  match title_from_comments (take 20 lines) with
  | Some t => t
  | None =>
      match title_from_variable content with
      | Some t => t
      | None => title (replace_char "_" " " filename)
      end
  end.

(** The comment lines that the first loop of [_extract_title] returns
from, as a predicate on the stripped line, and what it returns for one. *)
Definition is_title_comment (line : string) : bool :=
  startswith line "#" &&
  (contains "title" (lower line) || contains "name" (lower line)) &&
  (contains ":" line || contains "-" line).

Definition text_after_separator (line : string) : string :=
  if contains ":" line then strip (item 1 (split1 ":" line))
  else strip (item 1 (split1 "-" line)).

Definition is_delim_start (line : string) : bool :=
  startswith line (triple dquote) || startswith line (triple squote).

Definition is_delim_end (line : string) : bool :=
  endswith line (triple dquote) || endswith line (triple squote).

Definition nonempty (s : string) : bool :=
  match s with EmptyString => false | _ => true end.

(** The first loop of [_extract_description]; returns [docstring_lines]. *)
Fixpoint docstring_scan (in_docstring : bool) (docstring_lines : list string)
    (lines : list string) : list string :=
  match lines with
  | [] => docstring_lines
  | line :: rest =>
      let line := strip line in
      if is_delim_start line then
        if in_docstring then docstring_lines
        else
          let desc := strip (drop 3 line) in
          if nonempty desc && negb (is_delim_end desc)
          then docstring_scan true (docstring_lines ++ [desc]) rest
          else docstring_scan true docstring_lines rest
      else if in_docstring then
        if is_delim_end line then
          let desc := strip (drop_last 3 line) in
          if nonempty desc then docstring_lines ++ [desc] else docstring_lines
        else docstring_scan true (docstring_lines ++ [line]) rest
      else docstring_scan false docstring_lines rest
  end.

(** The second loop of [_extract_description]. *)
Fixpoint description_from_comments (lines : list string) : option string :=
  match lines with
  | [] => None
  | line :: rest =>
      let line := strip line in
      if startswith line "#" &&
         (contains "description" (lower line) || contains "about" (lower line))
      then
        if contains ":" line then Some (strip (item 1 (split1 ":" line)))
        else description_from_comments rest
      else description_from_comments rest
  end.

Definition _extract_description (content : string) : string :=
  let lines := split_on newline content in
  match docstring_scan false [] lines with
  | [] =>
      match description_from_comments (take 30 lines) with
      | Some d => d
      | None => "A Python game"
      end
  | docstring_lines => join " " docstring_lines
  end.

(** The precedence of [extract_title] as the specification words it:
the title comment, else the first line of the leading documentation block
(the block that [_extract_description] reads), else the file name in title
case. *)
Definition extract_title_as_specified (content filename : string) : string :=
  let lines := split_on newline content in
  match title_from_comments (take 20 lines) with
  | Some t => t
  | None =>
      match docstring_scan false [] lines with
      | first_line :: _ => first_line
      | [] => title (replace_char "_" " " filename)
      end
  end.

(** A source text from its lines. *)
Definition text_of (lines : list string) : string :=
  join (String newline EmptyString) lines.

Definition any_in (words : list string) (text : string) : bool :=
  existsb (fun word => contains word text) words.

Definition _detect_category (content : string) : string :=
  let content_lower := lower content in
  if any_in ["platform"; "jump"; "gravity"] content_lower then "platformer"
  else if any_in ["shoot"; "bullet"; "enemy"; "alien"] content_lower then "shooter"
  else if any_in ["puzzle"; "solve"; "brain"; "logic"] content_lower then "puzzle"
  else if any_in ["race"; "car"; "speed"; "lap"] content_lower then "racing"
  else if any_in ["break"; "brick"; "ball"; "paddle"] content_lower then "arcade"
  else if any_in ["click"; "increment"; "upgrade"] content_lower then "clicker"
  else if any_in ["quiz"; "question"; "answer"] content_lower then "quiz"
  else if any_in ["board"; "chess"; "checkers"] content_lower then "board"
  else if any_in ["type"; "typing"; "keyboard"] content_lower then "typing"
  else if any_in ["build"; "city"; "simulation"] content_lower then "simulation"
  else "arcade".

Definition _detect_multiplayer (content : string) : bool :=
  any_in ["multiplayer"; "player2"; "network"; "socket"; "client"; "server"]
    (lower content).

Definition str_in (s : string) (l : list string) : bool :=
  existsb (String.eqb s) l.

(** [requirements.add(package)]. Python leaves the order of [list(set)]
    unspecified; the model lists the members in order of first insertion,
    and no statement below depends on that order. *)
Definition set_add (s : string) (l : list string) : list string :=
  if str_in s l then l else l ++ [s].

Fixpoint requirements_loop (requirements : list string) (lines : list string)
    : list string :=
  match lines with
  | [] => requirements
  | line :: rest =>
      let line := strip line in
      if startswith line "import " || startswith line "from " then
        if contains "import" line then
          let parts := split_ws line in
          if 2 <=? length parts then
            let package := item 0 (split_on "." (item 1 parts)) in
            if negb (str_in package ["os"; "sys"; "random"; "math"; "time"])
            then requirements_loop (set_add package requirements) rest
            else requirements_loop requirements rest
          else requirements_loop requirements rest
        else requirements_loop requirements rest
      else requirements_loop requirements rest
  end.

Definition _extract_requirements (content : string) : list string :=
  requirements_loop ["pygame"] (split_on newline content).

Definition _generate_tags (content : string) : list string :=
  let content_lower := lower content in
  let has w := contains w content_lower in
  let tags := [] in
  let tags := if has "retro" || has "pixel" then tags ++ ["retro"] else tags in
  let tags := if has "neon" || has "glow" then tags ++ ["neon"] else tags in
  let tags := if has "action" || has "fast" then tags ++ ["action"] else tags in
  let tags := if has "casual" || has "relax" then tags ++ ["casual"] else tags in
  let tags := if has "hard" || has "difficult" then tags ++ ["challenging"] else tags in
  let tags := if has "pygame" then tags ++ ["pygame"] else tags in
  let tags := if has "class" then tags ++ ["oop"] else tags in
  take 5 tags.

(** The four fields that [merge_with_config] never takes from discovery. *)
Definition user_fields : list string :=
  ["playtime"; "high_score"; "last_played"; "completion_rate"].

(** The [game_info] dict literal of [_analyze_game_file]. *)
Definition game_info (name content : string) : game :=
  list_to_map
    [ ("id", VStr (stem name));
      ("title", VStr (_extract_title content (stem name)));
      ("file", VStr name);
      ("description", VStr (_extract_description content));
      ("category", VStr (_detect_category content));
      ("difficulty", VStr "medium");
      ("estimated_playtime", VStr "10-20 min");
      ("multiplayer", VBool (_detect_multiplayer content));
      ("requirements", VList (_extract_requirements content));
      ("version", VStr "1.0.0");
      ("author", VStr "Unknown");
      ("tags", VList (_generate_tags content));
      ("thumbnail", VStr ("assets/thumbnails/" +:+ stem name +:+ ".png"));
      ("achievements", VList []);
      ("leaderboard", VBool false);
      ("last_played", VNone);
      ("playtime", VInt 0);
      ("high_score", VInt 0);
      ("completion_rate", VFloat 0) ].

(** One entry of [games_folder.glob("*.py")]: the file name and what
    [open(...).read()] gives for it, the text or the exception. *)
Record dir_entry := { entry_name : string; entry_read : result string }.

(** What the scan does to the outside world: the files it opens and the
    lines it prints ([print(f"Error analyzing {file_path}: {e}")]). *)
Inductive event :=
| EvOpen (name : string)
| EvPrintError (name : string) (e : exn).

(** The object: [self.games_folder] is represented by its listing, which
    the file system provides; [self.discovered_games] is state. *)
Record t := { discovered_games : list game }.

Section Scan.
(** [ast.parse]: [None] when the text parses, the exception otherwise. *)
Variable ast_parse : string -> option exn.

(** The [print] of the [except] handler, for a file name and the exception
    caught: [None] when the line is written, and otherwise the exception
    that [print] raises (standard output cannot encode the path, or is
    closed). Nothing catches that exception. *)
Variable print_error : string -> exn -> option exn.

(** The body of the [try] block of [_analyze_game_file]. *)
Definition analyze_try (file_path : dir_entry) : result game :=
  let* content := entry_read file_path in
  match ast_parse content with
  | Some e => Raise e
  | None => Ok (game_info (entry_name file_path) content)
  end.

(** [_analyze_game_file]: what it returns, or the exception that leaves
    its handler, and the events up to there. *)
Definition _analyze_game_file (file_path : dir_entry)
    : result (option game) * list event :=
  match analyze_try file_path with
  | Ok game_info => (Ok (Some game_info), [EvOpen (entry_name file_path)])
  | Raise e =>
      match print_error (entry_name file_path) e with
      | None =>
          (Ok None, [EvOpen (entry_name file_path);
                     EvPrintError (entry_name file_path) e])
      | Some e' => (Raise e', [EvOpen (entry_name file_path)])
      end
  end.

(** The game that [_analyze_game_file] returns for a file, when it
    returns one. *)
Definition game_of_analysis (file_path : dir_entry) : option game :=
  match (_analyze_game_file file_path).1 with
  | Ok game_info => game_info
  | Raise _ => None
  end.

(** The [for game_file in ...glob("*.py")] loop of [scan_games_folder];
    an exception that leaves [_analyze_game_file] leaves the loop. *)
Fixpoint scan_loop (discovered : list game) (files : list dir_entry)
    : result (list game) * list event :=
  match files with
  | [] => (Ok discovered, [])
  | game_file :: rest =>
      if startswith (entry_name game_file) "__" then scan_loop discovered rest
      else
        let '(analysis, evs) := _analyze_game_file game_file in
        match analysis with
        | Raise e => (Raise e, evs)
        | Ok game_info =>
            let discovered :=
              match game_info with
              | Some g => discovered ++ [g]
              | None => discovered
              end in
            let '(res, evs') := scan_loop discovered rest in
            (res, evs ++ evs')
        end
  end.

(** [scan_games_folder]: [folder] is [None] when [games_folder] does not
    exist, and otherwise the [glob("*.py")] listing in the order the
    file system yields it. Returns the list or the exception that leaves
    the call, the object afterwards and the events. An exception leaves
    the call before [self.discovered_games] is assigned. *)
Definition scan_games_folder (self : t) (folder : option (list dir_entry))
    : result (list game) * t * list event :=
  match folder with
  | None => (Ok [], self, [])
  | Some files =>
      let '(res, evs) := scan_loop [] files in
      match res with
      | Ok discovered =>
          (Ok discovered, {| discovered_games := discovered |}, evs)
      | Raise e => (Raise e, self, evs)
      end
  end.
End Scan.

(** *** merge_with_config *)

(** Truth value of a JSON value ([if filename:]). *)
Definition truthy (v : value) : bool :=
  match v with
  | VNone => false
  | VBool b => b
  | VInt z => negb (z =? 0)%Z
  | VFloat q => negb (Qeq_bool q 0)
  | VStr s => nonempty s
  | VList l => match l with [] => false | _ => true end
  end.

(** [existing_games]: a dict from file name to entry. Keys are compared
    with [==], as Python dicts do. *)
Fixpoint dict_get (k : value) (d : list (value * game)) : option game :=
  match d with
  | [] => None
  | (k', g) :: rest => if py_eq k' k then Some g else dict_get k rest
  end.

Fixpoint dict_set (k : value) (g : game) (d : list (value * game))
    : list (value * game) :=
  match d with
  | [] => [(k, g)]
  | (k', g') :: rest =>
      if py_eq k' k then (k', g) :: rest else (k', g') :: dict_set k g rest
  end.

(** The loop [for game in existing_config.get('games', [])]. *)
Fixpoint index_existing (existing_games : list (value * game))
    (games : list game) : result (list (value * game)) :=
  match games with
  | [] => Ok existing_games
  | game :: rest =>
      let filename := default (VStr "") (game !! "file") in
      if truthy filename then
        if hashable filename
        then index_existing (dict_set filename game existing_games) rest
        else Raise TypeError
      else index_existing existing_games rest
  end.

Definition is_user_field (k : string) : bool := str_in k user_fields.

(** [existing.update({k: v for k, v in discovered.items()
                      if k not in [...]})] *)
Definition overlay (existing discovered : game) : game :=
  filter (fun kv => is_user_field kv.1 = false) discovered ∪ existing.

(** The body of the loop [for discovered in self.discovered_games]; the
    result is the entry appended to [merged_games]. *)
Definition merge_entry (existing_games : list (value * game))
    (discovered : game) : result game :=
  match discovered !! "file" with
  | None => Raise (KeyError "file")
  | Some filename =>
      if hashable filename then
        match dict_get filename existing_games with
        | Some entry =>
            let* existing :=
              match entry !! "id" with
              | Some _ => Ok entry
              | None =>
                  match discovered !! "id" with
                  | Some i => Ok (<["id" := i]> entry)
                  | None => Raise (KeyError "id")
                  end
              end in
            Ok (overlay existing discovered)
        | None => Ok discovered
        end
      else Raise TypeError
  end.

Fixpoint merge_loop (existing_games : list (value * game))
    (merged_games : list game) (discovered_games : list game)
    : result (list game) :=
  match discovered_games with
  | [] => Ok merged_games
  | discovered :: rest =>
      let* m := merge_entry existing_games discovered in
      merge_loop existing_games (merged_games ++ [m]) rest
  end.

(** The catalog document: the keys [games] and [hub_settings], each of
    which may be missing, and whatever other keys the document holds. *)
Record config := {
  cfg_games : option (list game);
  cfg_hub_settings : option (gmap string value);
  cfg_rest : gmap string value
}.

Definition empty_config : config :=
  {| cfg_games := None; cfg_hub_settings := None; cfg_rest := ∅ |}.

Definition default_hub_settings : gmap string value :=
  list_to_map
    [ ("theme", VStr "retro"); ("layout", VStr "grid");
      ("auto_update", VBool true); ("analytics", VBool false);
      ("cloud_sync", VBool false); ("parental_controls", VBool false) ].

(** [merge_with_config]: [on_disk] is [None] when [config_path] does not
    exist, and otherwise what [json.load] returns for it. *)
Definition merge_with_config (self : t) (on_disk : option config)
    : result config :=
  let existing_config := default empty_config on_disk in
  let* existing_games :=
    index_existing [] (default [] (cfg_games existing_config)) in
  let* merged_games := merge_loop existing_games [] (discovered_games self) in
  Ok {| cfg_games := Some merged_games;
        cfg_hub_settings :=
          Some (default default_hub_settings (cfg_hub_settings existing_config));
        cfg_rest := cfg_rest existing_config |}.

(** *** Vocabulary for the statements about the scan *)

(** The files a scan opened, and the errors it printed, in order. *)
Definition opened_files (evs : list event) : list string :=
  omap (fun ev => match ev with EvOpen n => Some n | _ => None end) evs.

Definition printed_errors (evs : list event) : list (string * exn) :=
  omap (fun ev => match ev with EvPrintError n e => Some (n, e) | _ => None end)
    evs.

(** The entries of a listing that the scan does not skip. *)
Definition analyzed (file : dir_entry) : bool :=
  negb (startswith (entry_name file) "__").

(** *** Vocabulary for the statements about the merge *)

(** The [games] list of the document on disk ([[]] when there is none). *)
Definition existing_list (on_disk : option config) : list game :=
  default [] (cfg_games (default empty_config on_disk)).

(** The entry is stored in [existing_games] under a key equal to
[filename]. *)
Definition keyed_by (filename : value) (entry : game) : bool :=
  let key := default (VStr "") (entry !! "file") in
  truthy key && py_eq key filename.

(** The existing entry that the merge matches with [filename]: the last
one stored under that key. *)
Definition matched_entry (filename : value) (games : list game) : option game :=
  last (filter (fun entry => keyed_by filename entry = true) games).

(** Entries on which the merge raises nothing: a discovered entry has an
[id] and a hashable [file]; the [file] of an existing entry is hashable
unless it is false-like (and then skipped). *)
Definition discovered_ok (d : game) : bool :=
  match d !! "file", d !! "id" with
  | Some filename, Some _ => hashable filename
  | _, _ => false
  end.

Definition existing_ok (entry : game) : bool :=
  let key := default (VStr "") (entry !! "file") in
  negb (truthy key) || hashable key.

(** Data for the examples: a catalog entry with user data, the text of a
game file, and a stand-in for [ast.parse] that rejects the texts in which
an opening bracket is followed by a colon. *)
Definition pong_entry : game :=
  list_to_map
    [ ("id", VStr "pong"); ("title", VStr "Old Pong"); ("file", VStr "pong.py");
      ("category", VStr "puzzle"); ("playtime", VInt 120);
      ("high_score", VInt 9); ("last_played", VStr "2025-12-31T18:00:00");
      ("completion_rate", VFloat (1 # 2)); ("favorite", VBool true) ].

Definition gone_entry : game :=
  list_to_map
    [ ("id", VStr "gone"); ("title", VStr "Gone"); ("file", VStr "gone.py");
      ("playtime", VInt 7) ].

Definition pong_text : string :=
  text_of ["# Title: Pong Deluxe"; "import pygame";
           "class Ball:"; "    speed = 3"].

Definition racer_text : string :=
  text_of ["import pygame"; "car = 1"; "lap = 0"].

Definition broken_text : string :=
  text_of ["def broken(:"; "    pass"].

Definition toy_parse (text : string) : option exn :=
  if contains "(:" text then Some SyntaxError else None.

(** Two stand-ins for the handler's [print]: one that writes every line,
and one whose standard output cannot encode the name [broken.py]. *)
Definition print_all (name : string) (e : exn) : option exn := None.

Definition print_unless_broken (name : string) (e : exn) : option exn :=
  if String.eqb name "broken.py" then Some UnicodeEncodeError else None.

Definition sample_disk : option config :=
  Some {| cfg_games := Some [pong_entry; gone_entry];
          cfg_hub_settings := None; cfg_rest := ∅ |}.

Definition pong_file : dir_entry :=
  {| entry_name := "pong.py"; entry_read := Ok pong_text |}.
Definition broken_file : dir_entry :=
  {| entry_name := "broken.py"; entry_read := Ok broken_text |}.
Definition racer_file : dir_entry :=
  {| entry_name := "racer.py"; entry_read := Ok racer_text |}.
Definition init_file : dir_entry :=
  {| entry_name := "__init__.py"; entry_read := Ok "import broken(:" |}.

Definition sample_folder : list dir_entry :=
  [pong_file; broken_file; init_file; racer_file].

(** The object after a scan that found the two valid sample files. *)
Definition sample_self : t :=
  {| discovered_games :=
       [game_info "pong.py" pong_text; game_info "racer.py" racer_text] |}.

(** *** save_updated_config and the hub's refresh *)

(** [save_updated_config]: the document written to [config_path] and the
number of games that the last line printed reports. When the merge raises,
nothing is written. *)
Definition save_updated_config (self : t) (on_disk : option config)
    : result (config * nat) :=
  let* config := merge_with_config self on_disk in
  Ok (config, length (discovered_games self)).

Section Refresh.
Variable ast_parse : string -> option exn.
Variable print_error : string -> exn -> option exn.

(** [EnhancedGameHub._refresh_games] (enhanced_main_menu.py): scan, save,
read the saved document back; returns [self.games], the discovery object
and the document now on disk. An exception of the scan or of the merge
leaves the call. *)
Definition _refresh_games (game_discovery : t)
    (folder : option (list dir_entry)) (on_disk : option config)
    : result (list game * t * config) :=
  let '(scanned, game_discovery, _) :=
    scan_games_folder ast_parse print_error game_discovery folder in
  let* discovered := scanned in
  let* saved := save_updated_config game_discovery on_disk in
  let config := saved.1 in
  Ok (default [] (cfg_games config), game_discovery, config).
End Refresh.

(** The ten categories of [_detect_category]. *)
Definition categories : list string :=
  ["platformer"; "shooter"; "puzzle"; "racing"; "arcade"; "clicker"; "quiz";
   "board"; "typing"; "simulation"].

(** The tags of [_generate_tags], in the order it tests them. *)
Definition tag_vocabulary : list string :=
  ["retro"; "neon"; "action"; "casual"; "challenging"; "pygame"; "oop"].

(** The modules that [_extract_requirements] never lists. *)
Definition standard_modules : list string :=
  ["os"; "sys"; "random"; "math"; "time"].

End GameDiscovery.

(** ** core/profile_manager.py *)

Module ProfileManager.

(** An insertion-ordered dict with string keys ([game_stats]): assigning
    to a present key keeps its position, a new key goes to the end. *)
Fixpoint od_get {V} (k : string) (d : list (string * V)) : option V :=
  match d with
  | [] => None
  | (k', v) :: rest => if String.eqb k' k then Some v else od_get k rest
  end.

Fixpoint od_set {V} (k : string) (v : V) (d : list (string * V))
    : list (string * V) :=
  match d with
  | [] => [(k, v)]
  | (k', v') :: rest =>
      if String.eqb k' k then (k', v) :: rest else (k', v') :: od_set k v rest
  end.

(** A number that is an [int] or a [float]. The rational of [NFloat] is
    the value the float stands for. *)
Inductive number :=
| NInt (z : Z)
| NFloat (q : Q).

Definition number_value (x : number) : Q :=
  match x with
  | NInt z => inject_Z z
  | NFloat q => q
  end.

(** The least magnitude of an [int] that has no float: 2^1024 - 2^970, the
    midpoint between the largest float and 2^1024. *)
Definition float_limit : Z := 2 ^ 1024 - 2 ^ 970.

(** The conversion of an [int] operand that [*], [+] and [/] apply when
    the other operand is a float. *)
Definition int_to_float (z : Z) : result Q :=
  if (Z.abs z <? float_limit)%Z then Ok (inject_Z z)
  else Raise OverflowError.

(** [a / b] on two [int]s: the quotient as a float. *)
Definition int_true_divide (a b : Z) : result Q :=
  if (b =? 0)%Z then Raise ZeroDivisionError
  else if (Z.abs a <? float_limit * Z.abs b)%Z
       then Ok (inject_Z a / inject_Z b)%Q
       else Raise OverflowError.

(** One value of [stats_data["game_stats"]]. *)
Record game_stat := {
  gs_playtime : Z;
  gs_sessions : nat;
  gs_high_score : Z;
  gs_average_score : number;
  gs_last_played : option string;
  gs_completion_rate : Q
}.

(** One value of [daily_stats]. *)
Record daily_stat := {
  d_playtime : Z;
  d_games : list string;
  d_scores : gmap string (list Z)
}.

(** One value of [weekly_stats] or [monthly_stats]; [games] is rebuilt
    from a set on every update, so it is a set here. *)
Record period_stat := {
  p_playtime : Z;
  p_games : gset string;
  p_sessions : nat
}.

Record stats := {
  total_playtime : Z;
  games_played : nat;
  favorite_category : value;
  achievement_count : nat;
  high_scores : gmap string Z;
  game_stats : list (string * game_stat);
  daily_stats : gmap string daily_stat;
  weekly_stats : gmap string period_stat;
  monthly_stats : gmap string period_stat
}.

Record achievement := {
  unlocked_date : string;
  ach_game_id : option string;
  ach_description : string
}.

Record profile := {
  name : string;
  created_date : string;
  last_active : string;
  preferences : gmap string value;
  achievements : gmap string achievement;
  favorites : list string;
  blocked_games : list string;
  parental_settings : gmap string value
}.

(** The object: [self.profile_data] and [self.stats_data]. *)
Record t := { profile_data : profile; stats_data : stats }.

(** The default documents of [_load_profile] and [_load_stats]. *)
Definition default_profile (profile_name now : string) : profile :=
  {| name := profile_name;
     created_date := now;
     last_active := now;
     preferences :=
       list_to_map
         [ ("theme", VStr "retro"); ("layout", VStr "grid");
           ("sound_enabled", VBool true); ("music_enabled", VBool true);
           ("volume", VFloat (7 # 10)); ("auto_save", VBool true);
           ("show_fps", VBool false);
           ("difficulty_preference", VStr "medium") ];
     achievements := ∅;
     favorites := [];
     blocked_games := [];
     parental_settings :=
       list_to_map
         [ ("enabled", VBool false); ("time_limit_minutes", VInt 0);
           ("allowed_categories", VList []) ] |}.

Definition default_stats : stats :=
  {| total_playtime := 0;
     games_played := 0;
     favorite_category := VStr "arcade";
     achievement_count := 0;
     high_scores := ∅;
     game_stats := [];
     daily_stats := ∅;
     weekly_stats := ∅;
     monthly_stats := ∅ |}.

(** [_save_profile()]: stamps [last_active] and writes the document. *)
Definition _save_profile (now : string) (p : profile) : profile :=
  {| name := name p;
     created_date := created_date p;
     last_active := now;
     preferences := preferences p;
     achievements := achievements p;
     favorites := favorites p;
     blocked_games := blocked_games p;
     parental_settings := parental_settings p |}.

Definition with_favorites (l : list string) (p : profile) : profile :=
  {| name := name p;
     created_date := created_date p;
     last_active := last_active p;
     preferences := preferences p;
     achievements := achievements p;
     favorites := l;
     blocked_games := blocked_games p;
     parental_settings := parental_settings p |}.

Definition with_achievements (a : gmap string achievement) (p : profile)
    : profile :=
  {| name := name p;
     created_date := created_date p;
     last_active := last_active p;
     preferences := preferences p;
     achievements := a;
     favorites := favorites p;
     blocked_games := blocked_games p;
     parental_settings := parental_settings p |}.

Definition str_in (s : string) (l : list string) : bool :=
  existsb (String.eqb s) l.

(** [add_favorite]; [now] is the clock reading of [_save_profile]. *)
Definition add_favorite (now : string) (game_id : string) (self : t) : t :=
  if negb (str_in game_id (favorites (profile_data self))) then
    let p := with_favorites (favorites (profile_data self) ++ [game_id])
               (profile_data self) in
    {| profile_data := _save_profile now p; stats_data := stats_data self |}
  else self.

Definition is_favorite (game_id : string) (self : t) : bool :=
  str_in game_id (favorites (profile_data self)).

(** The clock readings of one [record_game_session] call:
    [datetime.now().isoformat()] and the three [strftime] keys. *)
Record clock := {
  now_iso : string;
  today : string;
  this_week : string;
  this_month : string
}.

(** The record a game gets on its first session. *)
Definition new_game_stat : game_stat :=
  {| gs_playtime := 0; gs_sessions := 0; gs_high_score := 0;
     gs_average_score := NInt 0; gs_last_played := None;
     gs_completion_rate := 0 |}.

(** [((current_avg * (sessions - 1)) + score) / sessions]: on [int]s
    down to the division when [current_avg] is an [int], and with every
    [int] operand converted in turn when it is a float. *)
Definition update_average (score : Z) (sessions : nat) (current_avg : number)
    : result number :=
  match current_avg with
  | NInt a =>
      let* q := int_true_divide (a * (Z.of_nat sessions - 1) + score)
                  (Z.of_nat sessions) in
      Ok (NFloat q)
  | NFloat a =>
      let* m := int_to_float (Z.of_nat sessions - 1) in
      let* s := int_to_float score in
      let* n := int_to_float (Z.of_nat sessions) in
      Ok (NFloat ((a * m + s) / n)%Q)
  end.

(** The updates of [record_game_session] to the per-game record, given
    the record found or created for [game_id]; returns the record as these
    statements leave it, whether the high score was raised, and the
    exception of the average update, if it raises one: the record then
    keeps the average it had. *)
Definition update_game_stat (now : string) (duration_seconds score : Z)
    (game_stats : game_stat) : game_stat * bool * option exn :=
  let playtime := (gs_playtime game_stats + duration_seconds)%Z in
  let sessions := S (gs_sessions game_stats) in
  let last_played := Some now in
  let raised := (gs_high_score game_stats <? score)%Z in
  let high_score := if raised then score else gs_high_score game_stats in
  let average :=
    if (0 <? score)%Z
    then update_average score sessions (gs_average_score game_stats)
    else Ok (gs_average_score game_stats) in
  ({| gs_playtime := playtime; gs_sessions := sessions;
      gs_high_score := high_score;
      gs_average_score :=
        match average with
        | Ok average_score => average_score
        | Raise _ => gs_average_score game_stats
        end;
      gs_last_played := last_played;
      gs_completion_rate := gs_completion_rate game_stats |},
   raised,
   match average with
   | Ok _ => None
   | Raise e => Some e
   end).

Definition new_daily : daily_stat :=
  {| d_playtime := 0; d_games := []; d_scores := ∅ |}.

Definition new_period : period_stat :=
  {| p_playtime := 0; p_games := ∅; p_sessions := 0 |}.

Definition update_daily (game_id : string) (duration score : Z)
    (daily : daily_stat) : daily_stat :=
  {| d_playtime := (d_playtime daily + duration)%Z;
     d_games := if negb (str_in game_id (d_games daily))
                then d_games daily ++ [game_id] else d_games daily;
     d_scores := <[game_id := default [] (d_scores daily !! game_id) ++ [score]]>
                   (d_scores daily) |}.

Definition update_period (game_id : string) (duration : Z)
    (period : period_stat) : period_stat :=
  {| p_playtime := (p_playtime period + duration)%Z;
     p_games := p_games period ∪ {[ game_id ]};
     p_sessions := p_sessions period + 1 |}.

(** [_update_time_based_stats], as a function of the three bucket maps. *)
Definition _update_time_based_stats (now : clock) (game_id : string)
    (duration score : Z) (st : stats) : stats :=
  let daily := default new_daily (daily_stats st !! today now) in
  let weekly := default new_period (weekly_stats st !! this_week now) in
  let monthly := default new_period (monthly_stats st !! this_month now) in
  {| total_playtime := total_playtime st;
     games_played := games_played st;
     favorite_category := favorite_category st;
     achievement_count := achievement_count st;
     high_scores := high_scores st;
     game_stats := game_stats st;
     daily_stats :=
       <[today now := update_daily game_id duration score daily]> (daily_stats st);
     weekly_stats :=
       <[this_week now := update_period game_id duration weekly]> (weekly_stats st);
     monthly_stats :=
       <[this_month now := update_period game_id duration monthly]>
         (monthly_stats st) |}.

(** [record_game_session] on the statistics document: the exception that
    leaves the call, if any, and the document as the call leaves it. When
    the average update raises, the totals and the record of the game have
    been updated and the time buckets have not. *)
Definition record_session_stats (now : clock) (game_id : string)
    (duration_seconds score : Z) (st : stats) : option exn * stats :=
  let found := default new_game_stat (od_get game_id (game_stats st)) in
  let '(updated, raised, error) :=
    update_game_stat (now_iso now) duration_seconds score found in
  let st :=
    {| total_playtime := (total_playtime st + duration_seconds)%Z;
       games_played := games_played st + 1;
       favorite_category := favorite_category st;
       achievement_count := achievement_count st;
       high_scores := if raised then <[game_id := score]> (high_scores st)
                      else high_scores st;
       game_stats := od_set game_id updated (game_stats st);
       daily_stats := daily_stats st;
       weekly_stats := weekly_stats st;
       monthly_stats := monthly_stats st |} in
  match error with
  | Some e => (Some e, st)
  | None => (None, _update_time_based_stats now game_id duration_seconds score st)
  end.

Definition record_game_session (now : clock) (game_id : string)
    (duration_seconds score : Z) (self : t) : option exn * t :=
  let '(error, st) :=
    record_session_stats now game_id duration_seconds score (stats_data self) in
  (error, {| profile_data := profile_data self; stats_data := st |}).

Definition get_game_stats (game_id : string) (self : t) : game_stat :=
  default new_game_stat (od_get game_id (game_stats (stats_data self))).

Definition with_achievement_count (n : nat) (st : stats) : stats :=
  {| total_playtime := total_playtime st;
     games_played := games_played st;
     favorite_category := favorite_category st;
     achievement_count := n;
     high_scores := high_scores st;
     game_stats := game_stats st;
     daily_stats := daily_stats st;
     weekly_stats := weekly_stats st;
     monthly_stats := monthly_stats st |}.

Definition with_favorite_category (c : value) (st : stats) : stats :=
  {| total_playtime := total_playtime st;
     games_played := games_played st;
     favorite_category := c;
     achievement_count := achievement_count st;
     high_scores := high_scores st;
     game_stats := game_stats st;
     daily_stats := daily_stats st;
     weekly_stats := weekly_stats st;
     monthly_stats := monthly_stats st |}.

(** [unlock_achievement]; [unlocked_at] and [saved_at] are the clock
    readings for [unlocked_date] and for [_save_profile]. *)
Definition unlock_achievement (unlocked_at saved_at : string)
    (achievement_id : string) (game_id : option string)
    (description : string) (self : t) : bool * t :=
  match achievements (profile_data self) !! achievement_id with
  | None =>
      let a := {| unlocked_date := unlocked_at; ach_game_id := game_id;
                  ach_description := description |} in
      let p := with_achievements
                 (<[achievement_id := a]> (achievements (profile_data self)))
                 (profile_data self) in
      let st := with_achievement_count
                  (achievement_count (stats_data self) + 1) (stats_data self) in
      (true, {| profile_data := _save_profile saved_at p; stats_data := st |})
  | Some _ => (false, self)
  end.

Definition is_achievement_unlocked (achievement_id : string) (self : t)
    : bool :=
  bool_decide (is_Some (achievements (profile_data self) !! achievement_id)).

(** *** Recommendations *)

(** [next((g for g in all_games if g["id"] == game_id), None)] *)
Fixpoint find_game (game_id : string) (all_games : list game)
    : result (option game) :=
  match all_games with
  | [] => Ok None
  | g :: rest =>
      match g !! "id" with
      | None => Raise (KeyError "id")
      | Some i =>
          if py_eq i (VStr game_id) then Ok (Some g) else find_game game_id rest
      end
  end.

(** [played_categories]: an insertion-ordered dict from category to
    accumulated playtime, keys compared with [==]. *)
Fixpoint cat_get (k : value) (d : list (value * Z)) : option Z :=
  match d with
  | [] => None
  | (k', v) :: rest => if py_eq k' k then Some v else cat_get k rest
  end.

Fixpoint cat_set (k : value) (v : Z) (d : list (value * Z))
    : list (value * Z) :=
  match d with
  | [] => [(k, v)]
  | (k', v') :: rest =>
      if py_eq k' k then (k', v) :: rest else (k', v') :: cat_set k v rest
  end.

(** The loop [for game_id, stats in self.stats_data["game_stats"].items()]. *)
Fixpoint played_categories_loop (all_games : list game)
    (played_categories : list (value * Z))
    (items : list (string * game_stat)) : result (list (value * Z)) :=
  match items with
  | [] => Ok played_categories
  | (game_id, stats) :: rest =>
      let* game_info := find_game game_id all_games in
      match game_info with
      | Some g =>
          let category := default (VStr "arcade") (g !! "category") in
          if hashable category then
            played_categories_loop all_games
              (cat_set category
                 (default 0%Z (cat_get category played_categories)
                  + gs_playtime stats)%Z
                 played_categories)
              rest
          else Raise TypeError
      | None => played_categories_loop all_games played_categories rest
      end
  end.

(** [max(d, key=d.get)] continued from a current best: a later key wins
    only with a strictly greater value. *)
Fixpoint max_from (best : value) (best_v : Z) (d : list (value * Z)) : value :=
  match d with
  | [] => best
  | (k, v) :: rest =>
      if (best_v <? v)%Z then max_from k v rest else max_from best best_v rest
  end.

(** [g["id"] not in played_game_ids], negated. *)
Definition id_played (i : value) (played_game_ids : list string) : bool :=
  match i with
  | VStr s => str_in s played_game_ids
  | _ => false
  end.

(** [[g for g in all_games if g["id"] not in played_game_ids]] *)
Fixpoint unplayed (played_game_ids : list string) (all_games : list game)
    : result (list game) :=
  match all_games with
  | [] => Ok []
  | g :: rest =>
      match g !! "id" with
      | None => Raise (KeyError "id")
      | Some i =>
          if hashable i then
            let* tail := unplayed played_game_ids rest in
            Ok (if id_played i played_game_ids then tail else g :: tail)
          else Raise TypeError
      end
  end.

(** [g.get("category") == favorite_category] *)
Definition in_category (favorite_category : value) (g : game) : bool :=
  py_eq (default VNone (g !! "category")) favorite_category.

(** The last four statements of [get_recommended_games]. *)
Definition pick (limit : Z) (category_games other_games : list game)
    : list game :=
  let recommended := py_take limit category_games in
  let recommended :=
    if (Z.of_nat (length recommended) <? limit)%Z
    then recommended
         ++ py_take (limit - Z.of_nat (length recommended)) other_games
    else recommended in
  py_take limit recommended.

(** [max(played_categories, key=played_categories.get)], [None] when the
dict is empty (the [else] branch of [if played_categories]). *)
Definition py_max_key (played_categories : list (value * Z)) : option value :=
  match played_categories with
  | [] => None
  | (k, v) :: rest => Some (max_from k v rest)
  end.

(** [get_recommended_games]: the result, or the exception, and the object
afterwards. *)
Definition get_recommended_games (all_games : list game) (limit : Z)
    (self : t) : result (list game) * t :=
  match game_stats (stats_data self) with
  | [] => (Ok (py_take limit all_games), self)
  | items =>
      match played_categories_loop all_games [] items with
      | Raise e => (Raise e, self)
      | Ok played_categories =>
          let '(favorite_category, self) :=
            match py_max_key played_categories with
            | Some c =>
                (c, {| profile_data := profile_data self;
                       stats_data := with_favorite_category c (stats_data self) |})
            | None => (VStr "arcade", self)
            end in
          let played_game_ids := map fst items in
          match unplayed played_game_ids all_games with
          | Raise e => (Raise e, self)
          | Ok unplayed_games =>
              let category_games :=
                filter (fun g => in_category favorite_category g = true)
                  unplayed_games in
              let other_games :=
                filter (fun g => in_category favorite_category g = false)
                  unplayed_games in
              (Ok (pick limit category_games other_games), self)
          end
      end
  end.



(** *** Vocabulary for the statement about recommendations *)






(** The keys of a dict after the keys [cs] have been assigned in order:
a key equal to one already there adds nothing. *)
Definition add_key (keys : list value) (c : value) : list value :=
  if existsb (fun k => py_eq k c) keys then keys else keys ++ [c].

Definition key_order (keys cs : list value) : list value :=
  fold_left add_key cs keys.

(** *** Sequences of sessions *)

(** The arguments of one [record_game_session] call, with the clock
readings the call obtains. *)
Record session := {
  s_clock : clock;
  s_game : string;
  s_duration : Z;
  s_score : Z
}.

(** The manager after the call, whether the call returned or raised (the
hub catches the exception and goes on with the same object). *)
Definition play (self : t) (c : session) : t :=
  (record_game_session (s_clock c) (s_game c) (s_duration c) (s_score c) self).2.

(** The exception that the call raises, if any. *)
Definition play_error (self : t) (c : session) : option exn :=
  (record_game_session (s_clock c) (s_game c) (s_duration c) (s_score c) self).1.

(** The calls of [calls], first to last. *)
Definition play_all (calls : list session) (self : t) : t :=
  fold_left play calls self.

(** The scores passed for [game_id], in call order. *)
Definition scores_of (game_id : string) (calls : list session) : list Z :=
  map s_score (filter (fun c => s_game c = game_id) calls).

Definition sum_scores (scores : list Z) : Z := fold_right Z.add 0%Z scores.

(** The largest element of the non-empty list [first :: others]. *)
Definition max_score (first : Z) (others : list Z) : Z :=
  fold_left Z.max others first.

(** A manager whose two documents did not exist on disk. *)
Definition fresh (profile_name now : string) : t :=
  {| profile_data := default_profile profile_name now;
     stats_data := default_stats |}.

(** A clock reading and a session of game [x], for the examples. *)
Definition noon : clock :=
  {| now_iso := "2026-01-05T12:00:00"; today := "2026-01-05";
     this_week := "2026-W01"; this_month := "2026-01" |}.

Definition session_x (duration score : Z) : session :=
  {| s_clock := noon; s_game := "x"; s_duration := duration; s_score := score |}.



Definition sample_player : t :=
  play_all [session_x 300 100; session_x 5 0; session_x 600 300]
    (fresh "default" "2026-01-05T11:00:00").



(** *** The remaining operations of the profile *)

Definition with_preferences (m : gmap string value) (p : profile) : profile :=
  {| name := name p;
     created_date := created_date p;
     last_active := last_active p;
     preferences := m;
     achievements := achievements p;
     favorites := favorites p;
     blocked_games := blocked_games p;
     parental_settings := parental_settings p |}.

(** [get_preference(key, default)] *)
Definition get_preference (key : string) (default_value : value) (self : t)
    : value :=
  default default_value (preferences (profile_data self) !! key).

(** [set_preference(key, value)]; [now] is the clock reading of
[_save_profile]. *)
Definition set_preference (now : string) (key : string) (v : value) (self : t)
    : t :=
  {| profile_data :=
       _save_profile now
         (with_preferences (<[key := v]> (preferences (profile_data self)))
            (profile_data self));
     stats_data := stats_data self |}.

(** [l.remove(x)]: the list without the first occurrence of [x]. *)
Fixpoint list_remove (x : string) (l : list string) : list string :=
  match l with
  | [] => []
  | y :: rest => if String.eqb y x then rest else y :: list_remove x rest
  end.

(** [remove_favorite] *)
Definition remove_favorite (now : string) (game_id : string) (self : t) : t :=
  if str_in game_id (favorites (profile_data self)) then
    let p := with_favorites
               (list_remove game_id (favorites (profile_data self)))
               (profile_data self) in
    {| profile_data := _save_profile now p; stats_data := stats_data self |}
  else self.

(** [get_achievements(game_id)]: [game_id] is [None] for Python's [None];
the filter applies only to a game id that is true-like, so not to the
empty string. *)
Definition get_achievements (game_id : option string) (self : t)
    : gmap string achievement :=
  let achievements := achievements (profile_data self) in
  match game_id with
  | Some (String c rest) =>
      filter (fun kv => ach_game_id kv.2 = Some (String c rest)) achievements
  | _ => achievements
  end.

(** *** get_top_games *)

(** [stats.get(sort_by, 0)] for the numeric fields; a key that the record
does not have gives the default 0. *)
Definition numeric_field (sort_by : string) (st : game_stat) : Q :=
  if String.eqb sort_by "playtime" then inject_Z (gs_playtime st)
  else if String.eqb sort_by "sessions" then inject_Z (Z.of_nat (gs_sessions st))
  else if String.eqb sort_by "high_score" then inject_Z (gs_high_score st)
  else if String.eqb sort_by "average_score"
       then number_value (gs_average_score st)
  else if String.eqb sort_by "completion_rate" then gs_completion_rate st
  else 0%Q.

(** [sorted(..., reverse=True)]: the sort is stable, so the result is
determined by the order alone: keys descending, equal keys in their
original order. [lt a b] is [key(a) < key(b)]. Inserting at the front
keeps an element before the later elements that are not greater. *)
Fixpoint insert_desc {A} (lt : A -> A -> bool) (x : A) (l : list A) : list A :=
  match l with
  | [] => [x]
  | y :: rest => if lt x y then y :: insert_desc lt x rest else x :: l
  end.

Definition sort_desc {A} (lt : A -> A -> bool) (l : list A) : list A :=
  fold_right (insert_desc lt) [] l.

Definition numeric_lt (sort_by : string) (a b : string * game_stat) : bool :=
  negb (Qle_bool (numeric_field sort_by b.2) (numeric_field sort_by a.2)).

Definition last_played_lt (a b : string * game_stat) : bool :=
  match gs_last_played a.2, gs_last_played b.2 with
  | Some s, Some u => String.ltb s u
  | _, _ => false
  end.

(** [get_top_games(limit, sort_by)]. Each element of the result stands
for the dict [{"game_id": game_id, **stats}]. Sorting by [last_played]
compares strings; with two or more games, one of which has [None] there,
a comparison with [None] raises. *)
Definition get_top_games (limit : Z) (sort_by : string) (self : t)
    : result (list (string * game_stat)) :=
  let items := game_stats (stats_data self) in
  if String.eqb sort_by "last_played" then
    if (length items <=? 1)
       || forallb (fun kv => bool_decide (is_Some (gs_last_played kv.2))) items
    then Ok (py_take limit (sort_desc last_played_lt items))
    else Raise TypeError
  else Ok (py_take limit (sort_desc (numeric_lt sort_by) items)).

(** *** get_daily_playtime *)

(** The loop of [get_daily_playtime] over the indices of [range(days)];
[date_of i] is what [(datetime.now() - timedelta(days=i)).strftime(...)]
gives in iteration [i]: the date string, or the exception raised when the
date leaves the range of [datetime]. *)
Fixpoint daily_playtime_loop (date_of : nat -> result string) (self : t)
    (daily_stats_so_far : list (string * Z)) (indices : list nat)
    : result (list (string * Z)) :=
  match indices with
  | [] => Ok daily_stats_so_far
  | i :: rest =>
      let* date := date_of i in
      let playtime :=
        match daily_stats (stats_data self) !! date with
        | Some day => d_playtime day
        | None => 0%Z
        end in
      daily_playtime_loop date_of self
        (od_set date playtime daily_stats_so_far) rest
  end.

(** [get_daily_playtime(days)]: the dict built by the loop, in insertion
order, or the exception that leaves the loop. *)
Definition get_daily_playtime (date_of : nat -> result string) (days : Z)
    (self : t) : result (list (string * Z)) :=
  daily_playtime_loop date_of self [] (seq 0 (Z.to_nat days)).

(** *** Export and import *)

(** The exported document; a key of the imported document may be missing. *)
Record export_doc := {
  doc_profile : option profile;
  doc_stats : option stats;
  doc_export_date : string;
  doc_version : string
}.

Definition export_profile (now : string) (self : t) : export_doc :=
  {| doc_profile := Some (profile_data self);
     doc_stats := Some (stats_data self);
     doc_export_date := now;
     doc_version := "2.0.0" |}.

(** [import_profile]; [now] is the clock reading of [_save_profile]. *)
Definition import_profile (now : string) (import_data : export_doc) (self : t)
    : t :=
  let self :=
    match doc_profile import_data with
    | Some p => {| profile_data := _save_profile now p;
                   stats_data := stats_data self |}
    | None => self
    end in
  match doc_stats import_data with
  | Some s => {| profile_data := profile_data self; stats_data := s |}
  | None => self
  end.

(** *** Sequences of operations *)

(** One call on the manager, with the clock readings it obtains. *)
Inductive op :=
| OpRecord (c : session)
| OpSetPreference (now key : string) (v : value)
| OpAddFavorite (now game_id : string)
| OpRemoveFavorite (now game_id : string)
| OpUnlock (unlocked_at saved_at achievement_id : string)
    (game_id : option string) (description : string)
| OpRecommend (all_games : list game) (limit : Z).

Definition apply_op (self : t) (o : op) : t :=
  match o with
  | OpRecord c => play self c
  | OpSetPreference now key v => set_preference now key v self
  | OpAddFavorite now game_id => add_favorite now game_id self
  | OpRemoveFavorite now game_id => remove_favorite now game_id self
  | OpUnlock unlocked_at saved_at achievement_id game_id description =>
      (unlock_achievement unlocked_at saved_at achievement_id game_id
         description self).2
  | OpRecommend all_games limit => (get_recommended_games all_games limit self).2
  end.

Definition run_ops (ops : list op) (self : t) : t := fold_left apply_op ops self.

(** Sums over the per-game records and over the time buckets. *)
Definition sum_sessions (d : list (string * game_stat)) : nat :=
  fold_right (fun kv acc => gs_sessions kv.2 + acc) 0 d.

Definition sum_playtime (d : list (string * game_stat)) : Z :=
  fold_right (fun kv acc => (gs_playtime kv.2 + acc)%Z) 0%Z d.




(** What every manager reached from a fresh one satisfies, also after
calls that raised: the totals are the sums of the per-game records, a game
has one record, a record has a session, a time stamp, a high score that is
not negative and an average that is a float or the [int] 0, [high_scores]
holds exactly the positive high scores, the favorites are distinct and
[achievement_count] counts the achievements. *)
Definition record_ok (kv : string * game_stat) : Prop :=
  (0 <= gs_high_score kv.2)%Z /\ is_Some (gs_last_played kv.2) /\
  1 <= gs_sessions kv.2 /\
  (forall a, gs_average_score kv.2 = NInt a -> a = 0%Z).

Definition mirrored_high_score (d : list (string * game_stat)) (g : string)
    : option Z :=
  match od_get g d with
  | Some r => if (0 <? gs_high_score r)%Z then Some (gs_high_score r) else None
  | None => None
  end.

Definition stats_consistent (st : stats) : Prop :=
  games_played st = sum_sessions (game_stats st) /\
  total_playtime st = sum_playtime (game_stats st) /\
  NoDup (map fst (game_stats st)) /\
  Forall record_ok (game_stats st) /\
  (forall g, high_scores st !! g = mirrored_high_score (game_stats st) g).

Definition consistent (self : t) : Prop :=
  NoDup (favorites (profile_data self)) /\
  achievement_count (stats_data self) = size (achievements (profile_data self)) /\
  stats_consistent (stats_data self).



End ProfileManager.

(** * Properties *)

(** ** Python string primitives *)

Section Strings.
Import PyStr.

(** [s.split(sep, 1)] cuts at the first separator: the second part is all
the text after it. *)
Lemma split1_cut (sep : ascii) (before after : string) :
  mem_char sep before = false ->
  split1 sep (before +:+ String sep after) = [before; after].
Proof.
  induction before as [|c before IH]; simpl.
  - intros _. by rewrite Ascii.eqb_refl.
  - rewrite (Ascii.eqb_sym sep c).
    destruct (Ascii.eqb c sep); [done|]. simpl. intros H. by rewrite (IH H).
Qed.

(** [s.split(sep)] undoes [sep.join(parts)] for parts without [sep]. *)
Lemma split_on_join (sep : ascii) (part : string) (parts : list string) :
  Forall (fun p => mem_char sep p = false) (part :: parts) ->
  split_on sep (join (String sep EmptyString) (part :: parts)) = part :: parts.
Proof.
  revert part. induction parts as [|next parts IH]; intros part Hall.
  - apply Forall_cons in Hall as [Hp _]. simpl.
    induction part as [|c part IHp]; simpl in *; [done|].
    rewrite (Ascii.eqb_sym sep c) in Hp.
    destruct (Ascii.eqb c sep); [done|]. simpl in Hp. by rewrite (IHp Hp).
  - apply Forall_cons in Hall as [Hp Hall]. specialize (IH next Hall).
    change (join (String sep EmptyString) (part :: next :: parts))
      with (part +:+ String sep (join (String sep EmptyString) (next :: parts))).
    induction part as [|c part IHp]; simpl in *.
    + by rewrite Ascii.eqb_refl, IH.
    + rewrite (Ascii.eqb_sym sep c) in Hp.
      destruct (Ascii.eqb c sep); [done|]. simpl in Hp. by rewrite (IHp Hp).
Qed.

(** [s.lower()] leaves no upper-case ASCII letter and keeps the length. *)
Lemma lower_length (s : string) : String.length (lower s) = String.length s.
Proof.
  unfold lower. induction s as [|c s IH]; simpl; [done | by rewrite IH].
Qed.

(** Stripping twice is stripping once. *)
Lemma lstrip_by_idem (p : ascii -> bool) (s : string) :
  lstrip_by p (lstrip_by p s) = lstrip_by p s.
Proof.
  induction s as [|c s IH]; simpl; [done|].
  destruct (p c) eqn:E; [done|]. simpl. by rewrite E.
Qed.

End Strings.

(** ** Statistics: per-game records *)

Section GameStats.
Import ProfileManager.

Lemma od_get_set_eq {V} (k : string) (v : V) (d : list (string * V)) :
  od_get k (od_set k v d) = Some v.
Proof.
  induction d as [|[k' v'] d IH]; simpl.
  - by rewrite String.eqb_refl.
  - destruct (String.eqb k' k) eqn:E; simpl; rewrite E; [done | apply IH].
Qed.

Lemma od_get_set_ne {V} (k k' : string) (v : V) (d : list (string * V)) :
  k <> k' -> od_get k' (od_set k v d) = od_get k' d.
Proof.
  intros Hne. induction d as [|[k0 v0] d IH]; simpl.
  - destruct (String.eqb k k') eqn:E; [|done].
    apply String.eqb_eq in E. contradiction.
  - destruct (String.eqb k0 k) eqn:E; simpl.
    + apply String.eqb_eq in E. subst k0.
      destruct (String.eqb k k') eqn:E'; [|done].
      apply String.eqb_eq in E'. contradiction.
    + by rewrite IH.
Qed.



Lemma record_game_session_stats (now : clock) (game_id : string) (d score : Z)
    (self : t) :
  stats_data (record_game_session now game_id d score self).2 =
  (record_session_stats now game_id d score (stats_data self)).2.
Proof.
  unfold record_game_session.
  by destruct (record_session_stats now game_id d score (stats_data self)).
Qed.

Lemma game_stats_record (now : clock) (game_id : string) (d score : Z) (st : stats) :
  game_stats (record_session_stats now game_id d score st).2 =
  od_set game_id
    (update_game_stat (now_iso now) d score
       (default new_game_stat (od_get game_id (game_stats st)))).1.1
    (game_stats st).
Proof.
  unfold record_session_stats.
  by destruct (update_game_stat (now_iso now) d score
                 (default new_game_stat (od_get game_id (game_stats st))))
    as [[u r] [e|]].
Qed.

(** What one call does to the record of any game. *)
Lemma get_game_stats_record (now : clock) (g game_id : string) (d score : Z) (self : t) :
  get_game_stats g (record_game_session now game_id d score self).2 =
  if decide (game_id = g)
  then (update_game_stat (now_iso now) d score (get_game_stats g self)).1.1
  else get_game_stats g self.
Proof.
  unfold get_game_stats. rewrite record_game_session_stats, game_stats_record.
  destruct (decide (game_id = g)) as [->|Hne].
  - by rewrite od_get_set_eq.
  - by rewrite od_get_set_ne.
Qed.

Lemma get_game_stats_play (g : string) (c : session) (self : t) :
  get_game_stats g (play self c) =
  if decide (s_game c = g)
  then (update_game_stat (now_iso (s_clock c)) (s_duration c) (s_score c)
          (get_game_stats g self)).1.1
  else get_game_stats g self.
Proof. apply get_game_stats_record. Qed.

Lemma play_all_app (l1 l2 : list session) (self : t) :
  play_all (l1 ++ l2) self = play_all l2 (play_all l1 self).
Proof. unfold play_all. apply fold_left_app. Qed.

Lemma scores_of_cons (g : string) (c : session) (calls : list session) :
  scores_of g (c :: calls) =
  if decide (s_game c = g) then s_score c :: scores_of g calls
  else scores_of g calls.
Proof.
  unfold scores_of. rewrite filter_cons. by destruct (decide (s_game c = g)).
Qed.

(** *** High score *)

Lemma high_score_step (now : string) (d score : Z) (st : game_stat) :
  gs_high_score (update_game_stat now d score st).1.1 = Z.max (gs_high_score st) score.
Proof.
  unfold update_game_stat. simpl.
  destruct (Z.ltb_spec (gs_high_score st) score); lia.
Qed.

Lemma high_score_play_all (g : string) (calls : list session) (self : t) :
  gs_high_score (get_game_stats g (play_all calls self)) =
  fold_left Z.max (scores_of g calls) (gs_high_score (get_game_stats g self)).
Proof.
  revert self. induction calls as [|c calls IH]; intros self; [done|].
  change (play_all (c :: calls) self) with (play_all calls (play self c)).
  rewrite IH, scores_of_cons, get_game_stats_play.
  destruct (decide (s_game c = g)); [|done].
  by rewrite high_score_step.
Qed.

(** *** Average score *)

Lemma sessions_step (now : string) (d score : Z) (st : game_stat) :
  gs_sessions (update_game_stat now d score st).1.1 = S (gs_sessions st).
Proof. reflexivity. Qed.

Lemma average_step_zero (now : string) (d : Z) (st : game_stat) :
  gs_average_score (update_game_stat now d 0 st).1.1 = gs_average_score st.
Proof. reflexivity. Qed.



(** C1. A session with score 0 leaves the stored average alone but does
raise the session count, which is the divisor of every later update: after
the scores 100, 0, 300 for one game the stored average is 500/3, where the
two positive scores have mean 200 (and the three scores have mean 400/3). *)
Theorem zero_score_session_changes_divisor :
  (forall (now : clock) (g : string) (d : Z) (self : t),
     let before := get_game_stats g self in
     let after := get_game_stats g (record_game_session now g d 0 self).2 in
     gs_average_score after = gs_average_score before /\
     gs_sessions after = S (gs_sessions before)) /\
  let calls := [session_x 300 100; session_x 5 0; session_x 600 300] in
  let stored := get_game_stats "x" (play_all calls (fresh "default" "t0")) in
  gs_sessions stored = 3 /\
  (number_value (gs_average_score stored) == 500 # 3)%Q /\
  (inject_Z (sum_scores [100; 300]%Z) / inject_Z 2 == 200)%Q /\
  Qeq_bool (number_value (gs_average_score stored)) 200 = false.
Proof.
  split.
  - intros now g d self. cbn zeta. rewrite get_game_stats_record.
    destruct (decide (g = g)); [|done]. by rewrite average_step_zero, sessions_step.
  - cbn zeta. repeat split; vm_compute; reflexivity.
Qed.

(** C4. Counterexample to the claim as stated: after a single session for
game [x] with score -5 the stored high score is 0, and the maximum score
ever passed is -5. *)
Lemma high_score_above_negative_scores :
  gs_high_score
    (get_game_stats "x" (play_all [session_x 10 (-5)] (fresh "default" "t0"))) = 0%Z /\
  scores_of "x" [session_x 10 (-5)] = [(-5)%Z] /\
  max_score (-5) [] = (-5)%Z.
Proof. repeat split; vm_compute; reflexivity. Qed.

(** C4, amended. The stored high score of a game never decreases from one
call to the next (whatever game the call is for); after any sequence of
calls it is the largest of the value stored before and the scores passed
for the game; and, starting from a manager with no statistics, it is the
largest of 0 and the scores passed for the game. *)
Theorem high_score_running_max (g : string) (calls : list session) (self : t) :
  (forall c : session,
     (gs_high_score (get_game_stats g self)
      <= gs_high_score (get_game_stats g (play self c)))%Z) /\
  gs_high_score (get_game_stats g (play_all calls self)) =
    max_score (gs_high_score (get_game_stats g self)) (scores_of g calls) /\
  (forall profile_name now : string,
     gs_high_score (get_game_stats g (play_all calls (fresh profile_name now))) =
       max_score 0 (scores_of g calls)).
Proof.
  split; [|split].
  - intros c. rewrite get_game_stats_play.
    destruct (decide (s_game c = g)); [|lia].
    rewrite high_score_step. lia.
  - apply high_score_play_all.
  - intros profile_name now. apply high_score_play_all.
Qed.




(** The totals are additive over any run: every call adds its duration to
[total_playtime] and one to [games_played]. *)
Lemma totals_accumulate (calls : list session) (self : t) :
  total_playtime (stats_data (play_all calls self)) =
    (total_playtime (stats_data self)
     + fold_right Z.add 0 (map s_duration calls))%Z /\
  games_played (stats_data (play_all calls self)) =
    games_played (stats_data self) + length calls.
Proof.
  revert self. induction calls as [|c calls IH]; intros self; simpl.
  - split; lia.
  - change (play_all (c :: calls) self) with (play_all calls (play self c)).
    destruct (IH (play self c)) as [-> ->].
    unfold play. rewrite record_game_session_stats.
    unfold record_session_stats.
    destruct (update_game_stat (now_iso (s_clock c)) (s_duration c) (s_score c)
                (default new_game_stat
                   (od_get (s_game c) (game_stats (stats_data self)))))
      as [[u r] [e|]]; cbn; split; lia.
Qed.

End GameStats.

(** ** Profile: favorites and achievements *)

Section Profile.
Import ProfileManager.

Lemma str_in_app_self (x : string) (l : list string) :
  str_in x (l ++ [x]) = true.
Proof.
  unfold str_in. rewrite existsb_app. simpl.
  rewrite String.eqb_refl. by rewrite orb_true_r.
Qed.

(** C5. A second [add_favorite] of the same game changes nothing; a second
[unlock_achievement] of the same id returns [False] and changes nothing,
in particular neither [achievement_count] nor the achievements mapping. *)
Theorem favorites_and_achievements_idempotent :
  (forall (now1 now2 x : string) (self : t),
     let once := add_favorite now1 x self in
     let twice := add_favorite now2 x once in
     favorites (profile_data twice) = favorites (profile_data once) /\
     twice = once) /\
  (forall (t1 t2 t3 t4 id : string) (g1 g2 : option string)
          (d1 d2 : string) (self : t),
     let first := unlock_achievement t1 t2 id g1 d1 self in
     let second := unlock_achievement t3 t4 id g2 d2 first.2 in
     second.1 = false /\
     achievement_count (stats_data second.2) = achievement_count (stats_data first.2) /\
     achievements (profile_data second.2) = achievements (profile_data first.2) /\
     second.2 = first.2).
Proof.
  split.
  - intros now1 now2 x self. cbn zeta.
    assert (H : add_favorite now2 x (add_favorite now1 x self) = add_favorite now1 x self).
    { unfold add_favorite.
      destruct (str_in x (favorites (profile_data self))) eqn:E; simpl.
      - by rewrite E.
      - by rewrite str_in_app_self. }
    by rewrite H.
  - intros t1 t2 t3 t4 id g1 g2 d1 d2 self. cbn zeta.
    assert (H : unlock_achievement t3 t4 id g2 d2
                  (unlock_achievement t1 t2 id g1 d1 self).2
                = (false, (unlock_achievement t1 t2 id g1 d1 self).2)).
    { unfold unlock_achievement.
      destruct (achievements (profile_data self) !! id) eqn:E; simpl.
      - by rewrite E.
      - by rewrite lookup_insert_eq. }
    by rewrite H.
Qed.

End Profile.

(** ** Recommendations *)

Section Values.

Lemma Qeq_bool_comm (x y : Q) : Qeq_bool x y = Qeq_bool y x.
Proof.
  apply eq_true_iff_eq. rewrite !Qeq_bool_iff. split; intros H; by symmetry.
Qed.

Lemma py_eq_sym (a b : value) : py_eq a b = py_eq b a.
Proof.
  destruct a, b; unfold py_eq; cbn [num_of]; try done;
    try apply Qeq_bool_comm.
  - apply String.eqb_sym.
  - apply eq_true_iff_eq. rewrite !bool_decide_eq_true. split; congruence.
Qed.

Lemma py_eq_trans (a b c : value) :
  py_eq a b = true -> py_eq b c = true -> py_eq a c = true.
Proof.
  destruct a, b, c; unfold py_eq; cbn [num_of]; try done;
    try (rewrite !Qeq_bool_iff; intros H1 H2; by rewrite H1).
  - rewrite !String.eqb_eq. congruence.
  - rewrite !bool_decide_eq_true. congruence.
Qed.

Lemma py_eq_class (a b k : value) :
  py_eq a b = true -> py_eq a k = py_eq b k.
Proof.
  intros Hab. destruct (py_eq b k) eqn:Hbk.
  - by apply py_eq_trans with b.
  - destruct (py_eq a k) eqn:Hak; [|done].
    rewrite <- Hbk. symmetry. apply py_eq_trans with a; [|done].
    by rewrite py_eq_sym.
Qed.

End Values.

Section Recommendations.
Import ProfileManager.

Lemma py_take_nonneg {A} (k : Z) (l : list A) :
  (0 <= k)%Z -> py_take k l = take (Z.to_nat k) l.
Proof. intros H. unfold py_take. destruct (Z.leb_spec 0 k); [done | lia]. Qed.





Lemma str_in_elem_of (x : string) (l : list string) :
  str_in x l = true <-> x ∈ l.
Proof.
  unfold str_in. rewrite existsb_exists. split.
  - intros (y & Hy & Heq). apply String.eqb_eq in Heq. subst.
    by apply list_elem_of_In.
  - intros H. exists x. split; [by apply list_elem_of_In | apply String.eqb_refl].
Qed.

(** *** The favorite category *)

Lemma py_eq_refl (a : value) : py_eq a a = true.
Proof.
  destruct a; unfold py_eq; cbn [num_of]; try done;
    try (apply Qeq_bool_iff; reflexivity).
  - apply String.eqb_refl.
  - by apply bool_decide_eq_true.
Qed.











(** The keys after assigning [cs] to an empty dict: pairwise unequal, and
each is the first of the keys of [cs] that are equal to it, in the order
in which [cs] reaches them. *)
Lemma key_order_snoc (cs : list value) (c : value) :
  key_order [] (cs ++ [c]) = add_key (key_order [] cs) c.
Proof. unfold key_order. by rewrite fold_left_app. Qed.

Lemma key_order_covers (cs : list value) (c : value) :
  c ∈ cs -> exists k, k ∈ key_order [] cs /\ py_eq k c = true.
Proof.
  induction cs as [|c' cs IH] using rev_ind; [by intros ?%elem_of_nil|].
  rewrite key_order_snoc. unfold add_key. intros [Hin|Hin]%elem_of_app.
  - destruct (IH Hin) as (k & Hk & Hkc). exists k. split; [|done].
    destruct (existsb _ _); [done|]. apply elem_of_app. by left.
  - apply list_elem_of_singleton in Hin as ->.
    destruct (existsb (fun k => py_eq k c') (key_order [] cs)) eqn:E.
    + apply existsb_exists in E as (k & Hk & Hkc). exists k.
      split; [by apply list_elem_of_In | done].
    + exists c'. split; [|apply py_eq_refl].
      apply elem_of_app. right. by apply list_elem_of_singleton.
Qed.

Lemma key_order_split (cs keys_before keys_after : list value) (k : value) :
  key_order [] cs = keys_before ++ k :: keys_after ->
  Forall (fun k' => py_eq k' k = false) keys_before /\
  exists before after,
    cs = before ++ k :: after /\
    Forall (fun b => exists k', k' ∈ keys_before /\ py_eq k' b = true) before.
Proof.
  revert keys_after.
  induction cs as [|c cs IH] using rev_ind; intros keys_after Hk.
  - by destruct keys_before.
  - rewrite key_order_snoc in Hk. unfold add_key in Hk.
    destruct (existsb (fun k0 => py_eq k0 c) (key_order [] cs)) eqn:E.
    + destruct (IH _ Hk) as (Hd & before & after & -> & Hb).
      split; [done|]. exists before, (after ++ [c]).
      split; [by rewrite <- app_assoc | done].
    + destruct keys_after as [|k1 keys_after _] using rev_ind.
      * apply app_inj_tail in Hk as [Hcs <-].
        rewrite Hcs in E.
        split.
        { apply Forall_forall. intros k' Hk'.
          destruct (py_eq k' c) eqn:E'; [|done].
          rewrite <- E. symmetry. apply existsb_exists. exists k'.
          split; [by apply list_elem_of_In | done]. }
        exists cs, []. split; [done|].
        apply Forall_forall. intros b Hb.
        destruct (key_order_covers cs b Hb) as (k' & Hk' & Hkb).
        exists k'. split; [by rewrite <- Hcs | done].
      * rewrite app_comm_cons, app_assoc in Hk.
        apply app_inj_tail in Hk as [Hcs <-].
        destruct (IH _ Hcs) as (Hd & before & after & -> & Hb).
        split; [done|]. exists before, (after ++ [c]).
        split; [by rewrite <- app_assoc | done].
Qed.

Lemma key_order_elem_of (cs : list value) (k : value) :
  k ∈ key_order [] cs -> k ∈ cs.
Proof.
  intros (k1 & k2 & Hk)%list_elem_of_split.
  destruct (key_order_split cs k1 k2 k Hk) as (_ & before & after & -> & _).
  apply elem_of_app. right. left.
Qed.






End Recommendations.

(** ** Discovery: metadata extraction *)

Section Extraction.
Import PyStr GameDiscovery.

(** The first loop of [_extract_title] returns at the first title comment
that has a separator. *)
Lemma title_from_comments_find (lines : list string) :
  title_from_comments lines =
  option_map text_after_separator (List.find is_title_comment (map strip lines)).
Proof.
  induction lines as [|line rest IH]; [done|].
  cbn [title_from_comments map List.find].
  set (l := strip line). unfold is_title_comment.
  destruct (startswith l "#"); cbn [andb]; [|exact IH].
  destruct (contains "title" (lower l) || contains "name" (lower l));
    cbn [andb]; [|exact IH].
  unfold text_after_separator.
  destruct (contains ":" l) eqn:Ec; cbn [orb option_map]; [by rewrite Ec|].
  destruct (contains "-" l); cbn [option_map]; [by rewrite Ec | exact IH].
Qed.

(** C3. Counterexample to the claim as stated: for a text that opens
with a documentation block and has no title comment, the code returns the
file name in title case, not the first line of the block. *)
Lemma extract_title_skips_documentation_block :
  let content := text_of ["'''Space Blaster"; "Shoot the invaders"; "'''";
                          "import pygame"] in
  _extract_title content "my_game" = "My Game" /\
  extract_title_as_specified content "my_game" = "Space Blaster".
Proof. split; vm_compute; reflexivity. Qed.

(** [sub in s] holds exactly when [s.find(sub)] is an index. *)
Lemma contains_find (sub s : string) :
  contains sub s = match find sub s with Some _ => true | None => false end.
Proof.
  induction s as [|c s IH]; cbn [contains find].
  - by destruct (String.prefix sub EmptyString).
  - destruct (String.prefix sub (String c s)); [done|].
    cbn [orb]. rewrite IH. by destruct (find sub s).
Qed.

(** C3, amended. On ASCII text, [_extract_title] returns, in this order
of precedence: for the first of the first 20 lines that, stripped, starts
with [#], contains title or name in any case and contains a colon or a
dash, the stripped text after its first colon (after its first dash when
it has no colon); failing that, when the text contains TITLE and the line
from its first occurrence on (at most 100 characters) contains an equals
sign, the text after that sign stripped of white space and then of quotes;
failing that, the file name with underscores turned into spaces, in title
case. The documentation block is not consulted. *)
Theorem extract_title_precedence (content filename : string) :
  isascii content = true ->
  isascii filename = true ->
  _extract_title content filename =
  match List.find is_title_comment
          (map strip (take 20 (split_on newline content))) with
  | Some line => text_after_separator line
  | None =>
      let from_filename := title (replace_char "_" " " filename) in
      match find "TITLE" content with
      | Some start =>
          let line :=
            item 0 (split_on newline (slice start (start + 100) content)) in
          if contains "=" line
          then strip_chars (String dquote (String squote EmptyString))
                 (strip (item 1 (split1 "=" line)))
          else from_filename
      | None => from_filename
      end
  end.
Proof.
  intros _ _. unfold _extract_title. rewrite title_from_comments_find.
  destruct (List.find is_title_comment _); [done|].
  unfold title_from_variable. rewrite contains_find. cbn zeta.
  destruct (find "TITLE" content) as [start|]; [|done].
  by destruct (contains "=" _).
Qed.

Lemma extract_title_precedence_witness :
  _extract_title
    (text_of ["'''Space Blaster"; "'''"; "import pygame";
              "TITLE = 'Space Blaster Deluxe'"]) "my_game"
  = "Space Blaster Deluxe".
Proof.
  rewrite extract_title_precedence by reflexivity. reflexivity.
Defined.

(** The category keywords are tested in a fixed order: a text with a
platformer keyword is a platformer whatever else it mentions. *)
Lemma detect_category_platformer_first (content : string) :
  any_in ["platform"; "jump"; "gravity"] (lower content) = true ->
  _detect_category content = "platformer".
Proof. intros H. unfold _detect_category. by rewrite H. Qed.

Lemma detect_category_platformer_first_witness :
  _detect_category "if jump: fire(bullet)" = "platformer".
Proof. apply detect_category_platformer_first. reflexivity. Defined.

Lemma str_in_set_add (x y : string) (l : list string) :
  GameDiscovery.str_in x l = true -> GameDiscovery.str_in x (set_add y l) = true.
Proof.
  intros H. unfold set_add. destruct (GameDiscovery.str_in y l); [done|].
  unfold GameDiscovery.str_in in *. rewrite existsb_app. by rewrite H.
Qed.

Lemma requirements_loop_keeps (x : string) (lines requirements : list string) :
  GameDiscovery.str_in x requirements = true ->
  GameDiscovery.str_in x (requirements_loop requirements lines) = true.
Proof.
  revert requirements. induction lines as [|line lines IH]; intros req H; [done|].
  cbn [requirements_loop].
  repeat match goal with
         | |- context [if ?b then _ else _] => destruct b
         end; auto using str_in_set_add.
Qed.

(** The requirements always include pygame, and there are at most five
tags. *)
Lemma requirements_and_tags_bounds (content : string) :
  GameDiscovery.str_in "pygame" (_extract_requirements content) = true /\
  length (_generate_tags content) <= 5.
Proof.
  split.
  - unfold _extract_requirements. by apply requirements_loop_keeps.
  - unfold _generate_tags. cbn zeta. rewrite length_take. lia.
Qed.

End Extraction.

(** ** Catalog merge *)

Section Merge.
Import GameDiscovery.

Lemma dict_get_set (k key : value) (g : game) (d : list (value * game)) :
  dict_get k (dict_set key g d) = if py_eq key k then Some g else dict_get k d.
Proof.
  induction d as [|[k' g'] d IH]; simpl; [done|].
  destruct (py_eq k' key) eqn:E; simpl.
  - rewrite (py_eq_class k' key k E). by destruct (py_eq key k).
  - rewrite IH. destruct (py_eq k' k) eqn:E'; [|done].
    destruct (py_eq key k) eqn:E''; [|done].
    rewrite (py_eq_sym key k) in E''.
    by rewrite (py_eq_trans k' k key E' E'') in E.
Qed.

Lemma matched_entry_cons (k : value) (entry : game) (games : list game) :
  matched_entry k (entry :: games) =
  match matched_entry k games with
  | Some e => Some e
  | None => if keyed_by k entry then Some entry else None
  end.
Proof.
  unfold matched_entry. rewrite filter_cons.
  destruct (decide (keyed_by k entry = true)) as [->|Hn].
  - by rewrite last_cons.
  - destruct (keyed_by k entry); [done|].
    by destruct (last (filter _ games)).
Qed.

(** The lookup that the merge builds maps a file name to the last existing
entry stored under it. *)
Lemma index_existing_lookup (games : list game) (acc d : list (value * game))
    (k : value) :
  index_existing acc games = Ok d ->
  dict_get k d =
  match matched_entry k games with
  | Some e => Some e
  | None => dict_get k acc
  end.
Proof.
  revert acc. induction games as [|entry games IH]; intros acc; simpl.
  - by intros [= ->].
  - rewrite matched_entry_cons. unfold keyed_by.
    destruct (truthy (default (VStr "") (entry !! "file"))); simpl.
    + destruct (hashable (default (VStr "") (entry !! "file"))); [|done].
      intros H. rewrite (IH _ H), dict_get_set.
      destruct (matched_entry k games); [done|].
      by destruct (py_eq (default (VStr "") (entry !! "file")) k).
    + intros H. rewrite (IH _ H). by destruct (matched_entry k games).
Qed.

Lemma index_existing_ok (games : list game) (acc : list (value * game)) :
  Forall (fun e => existing_ok e = true) games ->
  exists d, index_existing acc games = Ok d.
Proof.
  intros H. revert acc. induction H as [|entry games He _ IH]; intros acc; simpl.
  - by exists acc.
  - unfold existing_ok in He.
    destruct (truthy (default (VStr "") (entry !! "file"))); simpl in *.
    + rewrite He. apply IH.
    + apply IH.
Qed.


(** What the overlay leaves in each field. *)
Lemma overlay_lookup (existing discovered : game) (k : string) :
  overlay existing discovered !! k =
  if is_user_field k then existing !! k
  else match discovered !! k with
       | Some v => Some v
       | None => existing !! k
       end.
Proof.
  unfold overlay.
  destruct (is_user_field k) eqn:Eu.
  - rewrite lookup_union_r; [done|].
    apply map_lookup_filter_None. right. intros v _. simpl. congruence.
  - destruct (discovered !! k) as [v|] eqn:Ed.
    + apply lookup_union_Some_l. by apply map_lookup_filter_Some.
    + apply lookup_union_r. apply map_lookup_filter_None. by left.
Qed.


Lemma merge_entry_file (existing_games : list (value * game))
    (discovered m : game) :
  merge_entry existing_games discovered = Ok m ->
  m !! "file" = discovered !! "file".
Proof.
  unfold merge_entry.
  destruct (discovered !! "file") as [filename|] eqn:Hfile; [|done].
  destruct (hashable filename); [|done].
  destruct (dict_get filename existing_games) as [entry|]; [|by intros [= <-]].
  assert (Hov : forall e, overlay e discovered !! "file" = Some filename).
  { intros e. rewrite overlay_lookup. cbn. by rewrite Hfile. }
  destruct (entry !! "id"); simpl.
  - intros [= <-]. apply Hov.
  - destruct (discovered !! "id"); simpl; [|done]. intros [= <-]. apply Hov.
Qed.

Lemma merge_entry_ok (existing_games : list (value * game)) (discovered : game) :
  discovered_ok discovered = true ->
  exists m, merge_entry existing_games discovered = Ok m.
Proof.
  unfold discovered_ok, merge_entry.
  destruct (discovered !! "file") as [filename|]; [|done].
  destruct (discovered !! "id"); [|done]. intros ->.
  destruct (dict_get filename existing_games) as [entry|]; [|by eexists].
  destruct (entry !! "id"); simpl; by eexists.
Qed.

(** The merge loop appends one merged entry per discovered entry. *)
Lemma merge_loop_ok (existing_games : list (value * game))
    (discovered_games acc : list game) :
  Forall (fun d => discovered_ok d = true) discovered_games ->
  exists ms,
    merge_loop existing_games acc discovered_games = Ok (acc ++ ms) /\
    Forall2 (fun d m => merge_entry existing_games d = Ok m) discovered_games ms.
Proof.
  intros H. revert acc. induction H as [|d ds Hd _ IH]; intros acc; simpl.
  - exists []. by rewrite app_nil_r.
  - destruct (merge_entry_ok existing_games d Hd) as [m Hm]. rewrite Hm. simpl.
    destruct (IH (acc ++ [m])) as (ms & Hloop & Hall).
    exists (m :: ms). rewrite Hloop, <- app_assoc. split; [done|].
    by constructor.
Qed.

(** The merge as a whole, on entries it raises nothing for. *)
Lemma merge_with_config_ok (self : t) (on_disk : option config) :
  Forall (fun d => discovered_ok d = true) (discovered_games self) ->
  Forall (fun e => existing_ok e = true) (existing_list on_disk) ->
  exists existing_games merged final,
    index_existing [] (existing_list on_disk) = Ok existing_games /\
    merge_with_config self on_disk = Ok final /\
    cfg_games final = Some merged /\
    Forall2 (fun d m => merge_entry existing_games d = Ok m)
      (discovered_games self) merged.
Proof.
  intros Hd He.
  destruct (index_existing_ok _ [] He) as [eg Heg].
  destruct (merge_loop_ok eg (discovered_games self) [] Hd) as (ms & Hloop & Hall).
  exists eg, ms. eexists. split; [done|].
  unfold merge_with_config. fold (existing_list on_disk).
  rewrite Heg. simpl. rewrite Hloop. simpl. done.
Qed.



(** C6. On entries the merge raises nothing for, the merged [games] list
has the file names of the discovered entries, position by position; so an
existing entry whose file name no discovered entry has is not in the
merged list, and no merged entry has its file name. *)
Theorem merge_drops_undiscovered (self : t) (on_disk : option config) :
  Forall (fun d => discovered_ok d = true) (discovered_games self) ->
  Forall (fun e => existing_ok e = true) (existing_list on_disk) ->
  exists merged final,
    merge_with_config self on_disk = Ok final /\
    cfg_games final = Some merged /\
    map (fun m : game => m !! "file") merged =
      map (fun d : game => d !! "file") (discovered_games self) /\
    forall (entry : game) (filename : value),
      entry ∈ existing_list on_disk ->
      entry !! "file" = Some filename ->
      (forall d, d ∈ discovered_games self -> d !! "file" <> Some filename) ->
      (entry ∉ merged) /\
      (forall m, m ∈ merged -> m !! "file" <> Some filename).
Proof.
  intros Hd He.
  destruct (merge_with_config_ok self on_disk Hd He)
    as (eg & merged & final & Heg & Hmerge & Hgames & Hall).
  exists merged, final. split; [done|]. split; [done|].
  assert (Hfiles : map (fun m : game => m !! "file") merged =
                   map (fun d : game => d !! "file") (discovered_games self)).
  { clear -Hall. induction Hall as [|d m ds ms Hm _ IH]; simpl; [done|].
    by rewrite IH, (merge_entry_file _ _ _ Hm). }
  split; [done|].
  intros entry filename _ Hfile Hnone.
  assert (Hno : forall m, m ∈ merged -> m !! "file" <> Some filename).
  { intros m Hm Hmf.
    assert (Hin : Some filename ∈ map (fun m : game => m !! "file") merged).
    { rewrite <- Hmf. by apply (list_elem_of_fmap_2 (fun m : game => m !! "file")). }
    rewrite Hfiles in Hin.
    apply (list_elem_of_fmap_1 (fun d : game => d !! "file")) in Hin
      as (d & Hdf & Hdin).
    by apply (Hnone d Hdin). }
  split; [|done]. intros Hin. by apply (Hno entry Hin).
Qed.

End Merge.
(** ** Discovery: the scan *)

Section ScanProperties.
Import PyStr GameDiscovery.
Variable ast_parse : string -> option exn.
Variable print_error : string -> exn -> option exn.

Abbreviation analyze := (_analyze_game_file ast_parse print_error).
Abbreviation game_of := (game_of_analysis ast_parse print_error).
Abbreviation scan := (scan_games_folder ast_parse print_error).

Lemma omap_cons_option {A B} (g : A -> option B) (x : A) (l : list A) :
  omap g (x :: l) = option_list (g x) ++ omap g l.
Proof. simpl. by destruct (g x). Qed.

(** The analysis of a file returns when the file reads and parses, and
when the error line for it can be printed. *)
Lemma analyze_valid (f : dir_entry) (text : string) :
  entry_read f = Ok text -> ast_parse text = None ->
  analyze f = (Ok (Some (game_info (entry_name f) text)), [EvOpen (entry_name f)]).
Proof.
  intros Hr Hp. unfold _analyze_game_file, analyze_try. rewrite Hr. simpl.
  by rewrite Hp.
Qed.

Lemma analyze_unparsable (f : dir_entry) (text : string) (e : exn) :
  entry_read f = Ok text -> ast_parse text = Some e ->
  print_error (entry_name f) e = None ->
  analyze f = (Ok None, [EvOpen (entry_name f); EvPrintError (entry_name f) e]).
Proof.
  intros Hr Hp Hprint. unfold _analyze_game_file, analyze_try. rewrite Hr. simpl.
  by rewrite Hp, Hprint.
Qed.

(** When the error line cannot be printed, the exception of [print]
leaves [_analyze_game_file]. *)
Lemma analyze_unprintable (f : dir_entry) (text : string) (e e' : exn) :
  entry_read f = Ok text -> ast_parse text = Some e ->
  print_error (entry_name f) e = Some e' ->
  analyze f = (Raise e', [EvOpen (entry_name f)]).
Proof.
  intros Hr Hp Hprint. unfold _analyze_game_file, analyze_try. rewrite Hr. simpl.
  by rewrite Hp, Hprint.
Qed.

(** With a [print] that writes every line, every analysis returns. *)
Lemma analyze_returns (f : dir_entry) :
  (forall e, print_error (entry_name f) e = None) ->
  (analyze f).1 = Ok (game_of f).
Proof.
  intros Hprint. unfold game_of_analysis, _analyze_game_file.
  destruct (analyze_try ast_parse f) as [g|e]; [done|]. by rewrite Hprint.
Qed.

Lemma game_info_file (name content : string) :
  game_info name content !! "file" = Some (VStr name).
Proof. reflexivity. Qed.

(** Whatever the analysis of a file yields carries the name of that file,
and the file is opened once. *)
Lemma analyze_names (f : dir_entry) :
  (forall g, game_of f = Some g ->
     g !! "file" = Some (VStr (entry_name f)) /\
     exists text, g = game_info (entry_name f) text) /\
  opened_files (analyze f).2 = [entry_name f] /\
  (forall n e, (n, e) ∈ printed_errors (analyze f).2 -> n = entry_name f).
Proof.
  unfold game_of_analysis, _analyze_game_file, analyze_try.
  destruct (entry_read f) as [text|e]; simpl.
  - destruct (ast_parse text) as [e|]; simpl.
    + destruct (print_error (entry_name f) e); simpl.
      * split; [done|]. split; [done|]. by intros n e' ?%elem_of_nil.
      * split; [done|]. split; [done|].
        intros n e' Hn. apply list_elem_of_singleton in Hn. congruence.
    + split; [|split; [done|by intros n e' ?%elem_of_nil]].
      intros g [= <-]. split; [apply game_info_file | by eexists].
  - destruct (print_error (entry_name f) e); simpl.
    + split; [done|]. split; [done|]. by intros n e' ?%elem_of_nil.
    + split; [done|]. split; [done|].
      intros n e' Hn. apply list_elem_of_singleton in Hn. congruence.
Qed.

(** One iteration of the loop. *)
Lemma scan_loop_skip (f : dir_entry) (files : list dir_entry) (acc : list game) :
  analyzed f = false ->
  scan_loop ast_parse print_error acc (f :: files) =
  scan_loop ast_parse print_error acc files.
Proof.
  unfold analyzed. intros H%negb_false_iff. cbn [scan_loop]. by rewrite H.
Qed.

Lemma scan_loop_step (f : dir_entry) (files : list dir_entry) (acc : list game) :
  analyzed f = true ->
  scan_loop ast_parse print_error acc (f :: files) =
  match (analyze f).1 with
  | Raise e => (Raise e, (analyze f).2)
  | Ok game_info =>
      ((scan_loop ast_parse print_error (acc ++ option_list game_info) files).1,
       (analyze f).2 ++
       (scan_loop ast_parse print_error (acc ++ option_list game_info) files).2)
  end.
Proof.
  unfold analyzed. intros H%negb_true_iff. cbn [scan_loop]. rewrite H.
  destruct (analyze f) as [[[g|]|e] evs]; cbn [fst snd option_list];
    rewrite ?app_nil_r; [| |done];
    by destruct (scan_loop ast_parse print_error _ files).
Qed.

(** The loop when every analysis returns: it collects the games of the
entries it does not skip, in order, and the events of all of them. *)
Lemma scan_loop_returns (files : list dir_entry) (acc : list game) :
  let candidates := filter (fun f => analyzed f = true) files in
  Forall (fun f => (analyze f).1 = Ok (game_of f)) candidates ->
  scan_loop ast_parse print_error acc files =
  (Ok (acc ++ omap game_of candidates),
   candidates ≫= fun f => (analyze f).2).
Proof.
  cbn zeta. revert acc. induction files as [|f files IH]; intros acc.
  - intros _. simpl. by rewrite app_nil_r.
  - rewrite filter_cons.
    destruct (decide (analyzed f = true)) as [Ha|Ha%not_true_is_false].
    + intros [Hf Hall]%Forall_cons.
      rewrite scan_loop_step, Hf, (IH _ Hall) by done. cbn [fst snd].
      by rewrite omap_cons_option, bind_cons, app_assoc.
    + intros Hall. rewrite scan_loop_skip by done. by apply IH.
Qed.

(** The loop when an analysis raises: the exception leaves the loop, and
the entries after that one are not analysed. *)
Lemma scan_loop_raises (before after : list dir_entry) (bad : dir_entry)
    (acc : list game) (e : exn) :
  Forall (fun f => analyzed f = true) (before ++ [bad]) ->
  Forall (fun f => (analyze f).1 = Ok (game_of f)) before ->
  (analyze bad).1 = Raise e ->
  scan_loop ast_parse print_error acc (before ++ bad :: after) =
  (Raise e, (before ++ [bad]) ≫= fun f => (analyze f).2).
Proof.
  revert acc. induction before as [|f before IH]; intros acc Ha Hok Hbad.
  - cbn [app] in Ha |- *. rewrite Forall_singleton in Ha.
    rewrite scan_loop_step, Hbad by done.
    cbn [mbind list_bind]. by rewrite app_nil_r.
  - cbn [app] in Ha |- *.
    apply Forall_cons in Ha as [Hf Ha]. apply Forall_cons in Hok as [Hr Hok].
    rewrite scan_loop_step, Hr by done.
    rewrite (IH _ Ha Hok Hbad). by rewrite bind_cons.
Qed.

(** The loop on any listing: every event is an event of the analysis of
an entry that is not skipped, and when the loop returns, the games are
those of all these entries. *)
Lemma scan_loop_any (files : list dir_entry) (acc : list game) :
  let candidates := filter (fun f => analyzed f = true) files in
  (forall ev, ev ∈ (scan_loop ast_parse print_error acc files).2 ->
     exists f, f ∈ candidates /\ ev ∈ (analyze f).2) /\
  (forall games, (scan_loop ast_parse print_error acc files).1 = Ok games ->
     games = acc ++ omap game_of candidates).
Proof.
  cbn zeta. revert acc. induction files as [|f files IH]; intros acc.
  - split; [by intros ev ?%elem_of_nil|]. intros games [= <-]. by rewrite app_nil_r.
  - rewrite filter_cons.
    destruct (decide (analyzed f = true)) as [Ha|Ha%not_true_is_false].
    + rewrite scan_loop_step by done.
      destruct (analyze f).1 as [g|e] eqn:E.
      * destruct (IH (acc ++ option_list g)) as [Hev Hgames]. cbn [fst snd]. split.
        -- intros ev [Hin|Hin]%elem_of_app.
           ++ exists f. split; [left | done].
           ++ destruct (Hev ev Hin) as (f' & Hf' & Hin'). exists f'.
              split; [by right | done].
        -- intros games Hg. rewrite (Hgames games Hg), omap_cons_option.
           unfold game_of_analysis at 2. rewrite E. by rewrite app_assoc.
      * cbn [fst snd]. split; [|done].
        intros ev Hin. exists f. split; [left | done].
    + rewrite scan_loop_skip by done. apply IH.
Qed.


(** C7, amended. For a listing that holds, in any order, two files that
read and parse and one file that reads but does not parse, none of them
skipped by name, when the error line for the bad file can be printed: the
scan returns (no exception leaves it), the games are those of the two
valid files, they are stored in [discovered_games], and exactly one error
is printed, for the bad file. *)
Theorem scan_survives_unparsable_file
    (self : t) (files : list dir_entry) (good1 good2 bad : dir_entry)
    (text1 text2 bad_text : string) (e : exn) :
  files ≡ₚ [good1; good2; bad] ->
  Forall (fun f => analyzed f = true) files ->
  entry_read good1 = Ok text1 -> ast_parse text1 = None ->
  entry_read good2 = Ok text2 -> ast_parse text2 = None ->
  entry_read bad = Ok bad_text -> ast_parse bad_text = Some e ->
  print_error (entry_name bad) e = None ->
  let r := scan self (Some files) in
  exists games,
    r.1.1 = Ok games /\
    games ≡ₚ [game_info (entry_name good1) text1;
              game_info (entry_name good2) text2] /\
    length games = 2 /\
    discovered_games r.1.2 = games /\
    printed_errors r.2 = [(entry_name bad, e)].
Proof.
  intros Hperm Hall Hr1 Hp1 Hr2 Hp2 Hrb Hpb Hprint. cbn zeta.
  assert (Hf : filter (fun f => analyzed f = true) files = files).
  { clear -Hall. induction Hall as [|f files Hf _ IH]; [done|].
    rewrite filter_cons, IH. by destruct (decide (analyzed f = true)). }
  pose proof (analyze_valid good1 text1 Hr1 Hp1) as H1.
  pose proof (analyze_valid good2 text2 Hr2 Hp2) as H2.
  pose proof (analyze_unparsable bad bad_text e Hrb Hpb Hprint) as Hb.
  assert (Hg1 : game_of good1 = Some (game_info (entry_name good1) text1))
    by (unfold game_of_analysis; by rewrite H1).
  assert (Hg2 : game_of good2 = Some (game_info (entry_name good2) text2))
    by (unfold game_of_analysis; by rewrite H2).
  assert (Hgb : game_of bad = None)
    by (unfold game_of_analysis; by rewrite Hb).
  assert (Hret : Forall (fun f => (analyze f).1 = Ok (game_of f)) files).
  { rewrite Hperm. repeat constructor.
    - by rewrite H1, Hg1.
    - by rewrite H2, Hg2.
    - by rewrite Hb, Hgb. }
  unfold scan_games_folder.
  rewrite scan_loop_returns; rewrite Hf; [|done]. cbn [fst snd app].
  assert (Hgames : omap game_of files
                   ≡ₚ [game_info (entry_name good1) text1;
                       game_info (entry_name good2) text2]).
  { rewrite Hperm. simpl. by rewrite Hg1, Hg2, Hgb. }
  eexists. split; [done|]. split; [done|]. split; [by rewrite Hgames|].
  split; [done|].
  apply Permutation_singleton_r. unfold printed_errors.
  rewrite Hperm. simpl. by rewrite H1, H2, Hb.
Qed.

(** When the error line for an unparsable file cannot be printed, the
exception of [print] leaves the handler, the loop and the call. For a
listing in which valid files come before such a file: the scan raises that
exception, [discovered_games] stays as it was, so the games of the valid
files already analysed are not stored, no error is recorded, and the files
after the bad one are never opened. *)
Theorem scan_aborts_when_error_cannot_be_printed
    (self : t) (before after : list dir_entry) (bad : dir_entry)
    (bad_text : string) (e e' : exn) :
  Forall (fun f => analyzed f = true) (before ++ [bad]) ->
  Forall (fun f => exists text, entry_read f = Ok text /\ ast_parse text = None)
    before ->
  entry_read bad = Ok bad_text -> ast_parse bad_text = Some e ->
  print_error (entry_name bad) e = Some e' ->
  let r := scan self (Some (before ++ bad :: after)) in
  r.1.1 = Raise e' /\
  r.1.2 = self /\
  opened_files r.2 = map entry_name before ++ [entry_name bad] /\
  printed_errors r.2 = [].
Proof.
  intros Ha Hvalid Hrb Hpb Hprint. cbn zeta.
  pose proof (analyze_unprintable bad bad_text e e' Hrb Hpb Hprint) as Hb.
  assert (Hev : forall f, f ∈ before -> (analyze f).2 = [EvOpen (entry_name f)]).
  { intros f Hf. rewrite Forall_forall in Hvalid.
    destruct (Hvalid f Hf) as (text & Hr & Hp).
    by rewrite (analyze_valid f text Hr Hp). }
  assert (Hok : Forall (fun f => (analyze f).1 = Ok (game_of f)) before).
  { apply Forall_forall. intros f Hf. rewrite Forall_forall in Hvalid.
    destruct (Hvalid f Hf) as (text & Hr & Hp).
    unfold game_of_analysis. by rewrite (analyze_valid f text Hr Hp). }
  unfold scan_games_folder.
  rewrite (scan_loop_raises before after bad [] e' Ha Hok); [|by rewrite Hb].
  cbn [fst snd]. split; [done|]. split; [done|].
  rewrite bind_app. cbn [mbind list_bind]. rewrite app_nil_r, Hb. cbn [snd].
  assert (Hbefore : (before ≫= fun f => (analyze f).2) = map EvOpen (map entry_name before)).
  { clear -Hev. induction before as [|f before IH]; [done|].
    rewrite bind_cons, Hev by left. cbn [map app]. f_equal.
    apply IH. intros f' Hf'. apply Hev. by right. }
  rewrite Hbefore. unfold opened_files, printed_errors. rewrite !omap_app.
  split.
  - f_equal. generalize (map entry_name before). intros l.
    induction l as [|n l IH]; [done|]. cbn. by rewrite IH.
  - cbn. rewrite app_nil_r. generalize (map entry_name before). intros l.
    by induction l.
Qed.

(** C10. When the games folder does not exist the scan returns the empty
list, prints nothing, opens nothing and leaves the object as it was; and in
any listing, a name that starts with two underscores is never opened, has
no error printed for it and is the file of no returned game. *)
Theorem scan_missing_folder_and_skipped_names (self : t) :
  scan self None = (Ok [], self, []) /\
  forall (files : list dir_entry) (name : string),
    startswith name "__" = true ->
    let r := scan self (Some files) in
    (name ∉ opened_files r.2) /\
    (forall e, (name, e) ∉ printed_errors r.2) /\
    (forall games g, r.1.1 = Ok games -> g ∈ games ->
       g !! "file" <> Some (VStr name)).
Proof.
  split; [done|]. intros files name Hname. cbn zeta.
  destruct (scan_loop_any files []) as [Hev Hgames]. cbn zeta in Hev, Hgames.
  assert (Hskip : forall f, f ∈ filter (fun f => analyzed f = true) files ->
                    entry_name f <> name).
  { intros f Hf%list_elem_of_filter Heq. destruct Hf as [Hf _].
    unfold analyzed in Hf. rewrite Heq, Hname in Hf. done. }
  assert (Hevents : (scan self (Some files)).2 =
                    (scan_loop ast_parse print_error [] files).2).
  { unfold scan_games_folder.
    by destruct (scan_loop ast_parse print_error [] files) as [[games|e] evs]. }
  rewrite Hevents. split; [|split].
  - intros Hin. unfold opened_files in Hin.
    apply list_elem_of_omap in Hin as (ev & Hin & Hn).
    destruct (Hev ev Hin) as (f & Hf & Hevf).
    apply (Hskip f Hf).
    assert (Hopen : name ∈ opened_files (analyze f).2).
    { unfold opened_files. apply list_elem_of_omap. by exists ev. }
    rewrite (proj1 (proj2 (analyze_names f))) in Hopen.
    by apply list_elem_of_singleton in Hopen.
  - intros e Hin. unfold printed_errors in Hin.
    apply list_elem_of_omap in Hin as (ev & Hin & Hn).
    destruct (Hev ev Hin) as (f & Hf & Hevf).
    apply (Hskip f Hf). symmetry.
    apply (proj2 (proj2 (analyze_names f)) name e). unfold printed_errors.
    apply list_elem_of_omap. by exists ev.
  - intros games g Hok Hg Hfile.
    assert (Hloop : (scan_loop ast_parse print_error [] files).1 = Ok games).
    { unfold scan_games_folder in Hok.
      by destruct (scan_loop ast_parse print_error [] files) as [[games'|e] evs]. }
    rewrite (Hgames games Hloop) in Hg. cbn [app] in Hg.
    apply list_elem_of_omap in Hg as (f & Hf & Hg).
    apply (Hskip f Hf).
    destruct (proj1 (analyze_names f) g Hg) as [Hgf _]. congruence.
Qed.




End ScanProperties.

(** ** Profile and statistics: consistency over sequences of operations *)

Section Consistency.
Import ProfileManager.

Lemma sum_sessions_set (g : string) (u : game_stat) (d : list (string * game_stat)) :
  sum_sessions (od_set g u d) + gs_sessions (default new_game_stat (od_get g d))
  = sum_sessions d + gs_sessions u.
Proof.
  induction d as [|[k v] d IH]; simpl; [lia|].
  destruct (String.eqb k g); simpl; lia.
Qed.

Lemma sum_playtime_set (g : string) (u : game_stat) (d : list (string * game_stat)) :
  (sum_playtime (od_set g u d) + gs_playtime (default new_game_stat (od_get g d))
   = sum_playtime d + gs_playtime u)%Z.
Proof.
  induction d as [|[k v] d IH]; simpl; [lia|].
  destruct (String.eqb k g); simpl; lia.
Qed.

Lemma od_get_None_keys {V} (g : string) (d : list (string * V)) :
  od_get g d = None <-> g ∉ map fst d.
Proof.
  induction d as [|[k v] d IH]; simpl.
  - split; [intros _; apply not_elem_of_nil | done].
  - rewrite not_elem_of_cons. destruct (String.eqb k g) eqn:E.
    + apply String.eqb_eq in E. subst. split; [done | by intros [? _]].
    + apply String.eqb_neq in E. rewrite IH. split; [by intros ? | by intros [_ ?]].
Qed.

Lemma od_set_keys {V} (g : string) (u : V) (d : list (string * V)) :
  map fst (od_set g u d) =
  if od_get g d is Some _ then map fst d else map fst d ++ [g].
Proof.
  induction d as [|[k v] d IH]; simpl; [done|].
  destruct (String.eqb k g) eqn:E; simpl; [done|].
  rewrite IH. by destruct (od_get g d).
Qed.

Lemma od_set_NoDup {V} (g : string) (u : V) (d : list (string * V)) :
  NoDup (map fst d) -> NoDup (map fst (od_set g u d)).
Proof.
  intros H. rewrite od_set_keys. destruct (od_get g d) eqn:E; [done|].
  apply NoDup_app. split; [done|]. split; [|apply NoDup_singleton].
  intros x Hx ->%list_elem_of_singleton. by apply od_get_None_keys in E.
Qed.

Lemma od_set_Forall {V} (P : string * V -> Prop) (g : string) (u : V)
    (d : list (string * V)) :
  (forall k, P (k, u)) -> Forall P d -> Forall P (od_set g u d).
Proof.
  intros Hu H. induction H as [|[k v] d Hk Hd IH]; simpl.
  - by constructor.
  - destruct (String.eqb k g); constructor; auto.
Qed.



Lemma fresh_consistent (profile_name now : string) :
  consistent (fresh profile_name now).
Proof.
  split; [apply NoDup_nil_2|]. split; [done|].
  unfold stats_consistent. simpl.
  repeat split; try done; try apply NoDup_nil_2.
Qed.


Lemma found_record_ok (g : string) (d : list (string * game_stat)) :
  Forall record_ok d ->
  (forall a, gs_average_score (default new_game_stat (od_get g d)) = NInt a ->
     a = 0%Z) /\
  gs_sessions (default new_game_stat (od_get g d)) <= sum_sessions d.
Proof.
  induction 1 as [|[k v] d Hk _ IH]; simpl.
  - split; [by intros a [= <-] | lia].
  - destruct (String.eqb k g); simpl.
    + split; [apply Hk | lia].
    + destruct IH as [IH1 IH2]. split; [done | lia].
Qed.

Lemma update_average_float (score : Z) (sessions : nat) (current_avg x : number) :
  update_average score sessions current_avg = Ok x -> exists q, x = NFloat q.
Proof.
  unfold update_average, int_true_divide, int_to_float.
  destruct current_avg as [a|a].
  - destruct (Z.of_nat sessions =? 0)%Z; [done|].
    destruct (Z.abs _ <? _)%Z; [|done]. intros [= <-]. by eexists.
  - destruct (Z.abs (Z.of_nat sessions - 1) <? float_limit)%Z; [|done].
    destruct (Z.abs score <? float_limit)%Z; [|done].
    destruct (Z.abs (Z.of_nat sessions) <? float_limit)%Z; [|done].
    intros [= <-]. by eexists.
Qed.

Lemma found_high_score_nonneg (g : string) (d : list (string * game_stat)) :
  Forall record_ok d ->
  (0 <= gs_high_score (default new_game_stat (od_get g d)))%Z.
Proof.
  induction 1 as [|[k v] d Hk _ IH]; simpl; [done|].
  destruct (String.eqb k g); [apply Hk | apply IH].
Qed.

Lemma playtime_step (now : string) (d score : Z) (st : game_stat) :
  gs_playtime (update_game_stat now d score st).1.1 = (gs_playtime st + d)%Z.
Proof. reflexivity. Qed.

(** The fields of the statistics after one session: the totals, the
record and the high scores are updated in every case, the time buckets
when the average update has not raised. *)
Lemma record_session_stats_fields (now : clock) (g : string) (d score : Z) (st : stats) :
  let found := default new_game_stat (od_get g (game_stats st)) in
  let updated := (update_game_stat (now_iso now) d score found).1.1 in
  let error := (update_game_stat (now_iso now) d score found).2 in
  let st' := (record_session_stats now g d score st).2 in
  total_playtime st' = (total_playtime st + d)%Z /\
  games_played st' = games_played st + 1 /\
  favorite_category st' = favorite_category st /\
  achievement_count st' = achievement_count st /\
  high_scores st' =
    (if (gs_high_score found <? score)%Z then <[g := score]> (high_scores st)
     else high_scores st) /\
  game_stats st' = od_set g updated (game_stats st) /\
  daily_stats st' =
    (if error is None then
       <[today now := update_daily g d score
                        (default new_daily (daily_stats st !! today now))]>
         (daily_stats st)
     else daily_stats st) /\
  weekly_stats st' =
    (if error is None then
       <[this_week now := update_period g d
                            (default new_period (weekly_stats st !! this_week now))]>
         (weekly_stats st)
     else weekly_stats st) /\
  monthly_stats st' =
    (if error is None then
       <[this_month now := update_period g d
                             (default new_period (monthly_stats st !! this_month now))]>
         (monthly_stats st)
     else monthly_stats st).
Proof.
  cbn zeta. unfold record_session_stats.
  destruct (update_game_stat (now_iso now) d score
              (default new_game_stat (od_get g (game_stats st))))
    as [[u r] [e|]] eqn:E; cbn [fst snd].
  - assert (Hr : r = (gs_high_score (default new_game_stat (od_get g (game_stats st)))
                      <? score)%Z)
      by (unfold update_game_stat in E; by injection E as _ <- _).
    rewrite Hr. cbn. done.
  - assert (Hr : r = (gs_high_score (default new_game_stat (od_get g (game_stats st)))
                      <? score)%Z)
      by (unfold update_game_stat in E; by injection E as _ <- _).
    rewrite Hr. cbn. done.
Qed.

Lemma record_session_stats_consistent (now : clock) (g : string) (d score : Z)
    (st : stats) :
  stats_consistent st -> stats_consistent (record_session_stats now g d score st).2.
Proof.
  intros (Hgp & Htp & Hnd & Hrec & Hhs).
  destruct (record_session_stats_fields now g d score st)
    as (Et & Eg & _ & _ & Eh & Es & _).
  cbn zeta in *. unfold stats_consistent.
  rewrite Et, Eg, Eh, Es. clear Et Eg Eh Es.
  set (found := default new_game_stat (od_get g (game_stats st))).
  assert (Hf : (0 <= gs_high_score found)%Z) by by apply found_high_score_nonneg.
  destruct (found_record_ok g (game_stats st) Hrec) as [Havg _]. fold found in Havg.
  repeat split.
  - pose proof (sum_sessions_set g (update_game_stat (now_iso now) d score found).1.1
                  (game_stats st)) as H.
    fold found in H. rewrite sessions_step in H. lia.
  - pose proof (sum_playtime_set g (update_game_stat (now_iso now) d score found).1.1
                  (game_stats st)) as H.
    fold found in H. rewrite playtime_step in H. lia.
  - by apply od_set_NoDup.
  - apply od_set_Forall; [|done]. intros k. unfold record_ok. cbn.
    split; [|split; [by eexists | split; [lia|]]].
    + destruct (Z.ltb_spec (gs_high_score found) score); lia.
    + intros a. destruct (0 <? score)%Z; [|apply Havg].
      destruct (update_average score (S (gs_sessions found)) (gs_average_score found))
        as [x|e] eqn:E; [|apply Havg].
      destruct (update_average_float _ _ _ _ E) as [q ->]. done.
  - intros g'. destruct (decide (g = g')) as [<-|Hne].
    + unfold mirrored_high_score.
      rewrite od_get_set_eq. rewrite high_score_step.
      specialize (Hhs g). unfold mirrored_high_score in Hhs.
      destruct (Z.ltb_spec (gs_high_score found) score) as [Hlt|Hge].
      * rewrite lookup_insert_eq, Z.max_r by lia.
        destruct (Z.ltb_spec 0 score); [done | lia].
      * rewrite Z.max_l by lia. rewrite Hhs. subst found.
        by destruct (od_get g (game_stats st)).
    + unfold mirrored_high_score at 1. rewrite od_get_set_ne by done.
      fold (mirrored_high_score (game_stats st) g'). rewrite <- Hhs.
      destruct (gs_high_score found <? score)%Z; [|done].
      by rewrite lookup_insert_ne.
Qed.



Lemma list_remove_subseteq (x : string) (l : list string) :
  list_remove x l ⊆ l.
Proof.
  induction l as [|y l IH]; simpl; [done|].
  destruct (String.eqb y x).
  - intros z Hz. by apply list_elem_of_further.
  - intros z [-> | Hz]%elem_of_cons;
      [apply list_elem_of_here | apply list_elem_of_further, IH, Hz].
Qed.

Lemma list_remove_NoDup (x : string) (l : list string) :
  NoDup l -> NoDup (list_remove x l).
Proof.
  induction 1 as [|y l Hy Hl IH]; simpl; [constructor|].
  destruct (String.eqb y x); [done|]. constructor; [|done].
  intros Hin. apply Hy. by apply (list_remove_subseteq x l).
Qed.

(** After [l.remove(x)] on a list without repetitions, [x] is gone. *)
Lemma list_remove_gone (x : string) (l : list string) :
  NoDup l -> x ∉ list_remove x l.
Proof.
  induction 1 as [|y l Hy Hl IH]; simpl; [apply not_elem_of_nil|].
  destruct (String.eqb y x) eqn:E.
  - apply String.eqb_eq in E. by subst.
  - apply String.eqb_neq in E. rewrite not_elem_of_cons. split; [congruence|done].
Qed.

(** The object after [get_recommended_games]: nothing but the cached
favorite category can have changed. *)
Lemma recommend_state (all_games : list game) (limit : Z) (self : t) :
  exists c,
    (get_recommended_games all_games limit self).2 =
    {| profile_data := profile_data self;
       stats_data := with_favorite_category c (stats_data self) |}.
Proof.
  unfold get_recommended_games.
  assert (Hid : {| profile_data := profile_data self;
                   stats_data := with_favorite_category
                                   (favorite_category (stats_data self))
                                   (stats_data self) |} = self).
  { by destruct self as [p []]. }
  destruct (game_stats (stats_data self)) as [|item items].
  { exists (favorite_category (stats_data self)). by rewrite Hid. }
  destruct (played_categories_loop all_games [] (item :: items)) as [pc|e].
  - destruct (py_max_key pc) as [c|].
    + exists c. by destruct (unplayed _ all_games).
    + exists (favorite_category (stats_data self)). rewrite Hid.
      by destruct (unplayed _ all_games).
  - exists (favorite_category (stats_data self)). by rewrite Hid.
Qed.

Lemma apply_op_consistent (self : t) (o : op) :
  consistent self -> consistent (apply_op self o).
Proof.
  intros (Hfav & Hach & Hst). destruct o; simpl.
  - split; [unfold play, record_game_session;
             by destruct (record_session_stats _ _ _ _ _)|]. split.
    + unfold play. rewrite record_game_session_stats.
      destruct (record_session_stats_fields (s_clock c) (s_game c) (s_duration c)
                  (s_score c) (stats_data self)) as (_ & _ & _ & -> & _).
      unfold record_game_session.
      by destruct (record_session_stats _ _ _ _ _).
    + unfold play. rewrite record_game_session_stats.
      by apply record_session_stats_consistent.
  - done.
  - unfold add_favorite.
    destruct (str_in game_id (favorites (profile_data self))) eqn:E; simpl;
      [done|].
    split; [|done]. apply NoDup_app. split; [done|].
    split; [|apply NoDup_singleton].
    intros x Hx ->%list_elem_of_singleton.
    apply str_in_elem_of in Hx. congruence.
  - unfold remove_favorite.
    destruct (str_in game_id (favorites (profile_data self))); simpl; [|done].
    split; [|done]. by apply list_remove_NoDup.
  - unfold unlock_achievement.
    destruct (achievements (profile_data self) !! achievement_id) eqn:E; simpl;
      [done|].
    split; [done|]. split; [|done]. cbn.
    rewrite map_size_insert_None by done. lia.
  - destruct (recommend_state all_games limit self) as [c ->]. done.
Qed.

(** Every manager reached from a fresh one is consistent. *)
Lemma run_ops_consistent (ops : list op) (self : t) :
  consistent self -> consistent (run_ops ops self).
Proof.
  revert self. induction ops as [|o ops IH]; intros self H; [done|].
  apply IH. by apply apply_op_consistent.
Qed.


End Consistency.

(** ** Statistics queries *)

Section Queries.
Import ProfileManager.

(** *** The stable descending sort *)

Section SortDesc.
Context {A : Type} (lt : A -> A -> bool).
Hypothesis lt_asym : forall x y, lt x y = true -> lt y x = false.
Hypothesis ge_trans : forall x y z, lt x y = false -> lt y z = false -> lt x z = false.

Lemma insert_desc_perm (x : A) (l : list A) : insert_desc lt x l ≡ₚ x :: l.
Proof.
  induction l as [|y l IH]; simpl; [done|].
  destruct (lt x y); [|done]. rewrite IH. apply perm_swap.
Qed.

Lemma sort_desc_perm (l : list A) : sort_desc lt l ≡ₚ l.
Proof.
  induction l as [|x l IH]; simpl; [done|].
  by rewrite insert_desc_perm, IH.
Qed.

Lemma insert_desc_sorted (x : A) (l : list A) :
  StronglySorted (fun a b => lt a b = false) l ->
  StronglySorted (fun a b => lt a b = false) (insert_desc lt x l).
Proof using lt_asym ge_trans.
  induction l as [|y l IH]; simpl; intros Hs.
  - repeat constructor.
  - apply StronglySorted_cons in Hs as [Hy Hl].
    destruct (lt x y) eqn:E.
    + apply StronglySorted_cons. split; [|by apply IH].
      rewrite insert_desc_perm. constructor; [by apply lt_asym | done].
    + apply StronglySorted_cons. split.
      * constructor; [done|]. eapply Forall_impl; [exact Hy|].
        intros z Hz. by apply ge_trans with y.
      * by apply StronglySorted_cons.
Qed.

Lemma sort_desc_sorted (l : list A) :
  StronglySorted (fun a b => lt a b = false) (sort_desc lt l).
Proof using lt_asym ge_trans.
  induction l as [|x l IH]; simpl; [constructor | by apply insert_desc_sorted].
Qed.

(** Stability: elements that the order does not separate keep their
relative order. *)
Lemma insert_desc_stable (P : A -> bool) (x : A) (l : list A) :
  (forall a b, lt a b = true -> P a = true -> P b = true -> False) ->
  filter (fun a => P a = true) (insert_desc lt x l) =
  filter (fun a => P a = true) (x :: l).
Proof.
  intros HP. induction l as [|y l IH]; simpl; [done|].
  destruct (lt x y) eqn:E; [|done].
  rewrite filter_cons, IH, !filter_cons.
  destruct (decide (P y = true)) as [Hy|Hy],
           (decide (P x = true)) as [Hx|Hx]; try done.
  by destruct (HP x y E Hx Hy).
Qed.

Lemma sort_desc_stable (P : A -> bool) (l : list A) :
  (forall a b, lt a b = true -> P a = true -> P b = true -> False) ->
  filter (fun a => P a = true) (sort_desc lt l) = filter (fun a => P a = true) l.
Proof.
  intros HP. induction l as [|x l IH]; simpl; [done|].
  rewrite insert_desc_stable by done. by rewrite !filter_cons, IH.
Qed.

End SortDesc.

Lemma StronglySorted_weaken {A} (R R' : A -> A -> Prop) (l : list A) :
  (forall a b, R a b -> R' a b) -> StronglySorted R l -> StronglySorted R' l.
Proof.
  intros HR. induction l as [|x l IH]; intros Hs; [constructor|].
  apply StronglySorted_cons in Hs as [Hx Hl].
  apply StronglySorted_cons. split; [|by apply IH].
  eapply Forall_impl; [exact Hx | apply HR].
Qed.

Lemma numeric_lt_asym (sort_by : string) (x y : string * game_stat) :
  numeric_lt sort_by x y = true -> numeric_lt sort_by y x = false.
Proof.
  unfold numeric_lt. rewrite negb_true_iff, negb_false_iff.
  intros H. apply Qle_bool_iff. apply Qnot_lt_le. intros Hlt.
  apply Qlt_le_weak, Qle_bool_iff in Hlt. congruence.
Qed.

Lemma numeric_ge_trans (sort_by : string) (x y z : string * game_stat) :
  numeric_lt sort_by x y = false -> numeric_lt sort_by y z = false ->
  numeric_lt sort_by x z = false.
Proof.
  unfold numeric_lt. rewrite !negb_false_iff, !Qle_bool_iff.
  intros H1 H2. by apply Qle_trans with (numeric_field sort_by y.2).
Qed.

(** The ranking of [get_top_games] for a numeric sort key and a limit
that is not negative: the first [limit] games of a rearrangement of
[game_stats] in which the keys descend and games of equal key keep the
order they have in [game_stats]. *)
Theorem top_games_ranking (limit : Z) (sort_by : string) (self : t) :
  sort_by <> "last_played" ->
  (0 <= limit)%Z ->
  exists ranked,
    get_top_games limit sort_by self = Ok (take (Z.to_nat limit) ranked) /\
    ranked ≡ₚ game_stats (stats_data self) /\
    StronglySorted
      (fun a b => (numeric_field sort_by b.2 <= numeric_field sort_by a.2)%Q)
      ranked /\
    forall q : Q,
      filter (fun a => Qeq_bool (numeric_field sort_by a.2) q = true) ranked =
      filter (fun a => Qeq_bool (numeric_field sort_by a.2) q = true)
        (game_stats (stats_data self)).
Proof.
  intros Hkey Hlimit.
  exists (sort_desc (numeric_lt sort_by) (game_stats (stats_data self))).
  split; [|split; [|split]].
  - unfold get_top_games.
    destruct (String.eqb sort_by "last_played") eqn:E.
    + by apply String.eqb_eq in E.
    + by rewrite py_take_nonneg.
  - apply sort_desc_perm.
  - eapply StronglySorted_weaken;
      [|apply sort_desc_sorted; [apply numeric_lt_asym | apply numeric_ge_trans]].
    intros a b H. unfold numeric_lt in H.
    apply negb_false_iff in H. by apply Qle_bool_iff.
  - intros q.
    apply (sort_desc_stable (numeric_lt sort_by)
             (fun a => Qeq_bool (numeric_field sort_by a.2) q)).
    intros a b Hlt Ha Hb. unfold numeric_lt in Hlt.
    apply negb_true_iff in Hlt.
    apply Qeq_bool_iff in Ha, Hb.
    assert (Hle : Qle_bool (numeric_field sort_by b.2) (numeric_field sort_by a.2) = true).
    { apply Qle_bool_iff. rewrite Ha, Hb. apply Qle_refl. }
    congruence.
Qed.

End Queries.

(** ** Daily playtime *)

Section DailyPlaytime.
Import ProfileManager.

Lemma od_set_length_le {V} (k : string) (v : V) (d : list (string * V)) :
  length (od_set k v d) <= S (length d).
Proof.
  induction d as [|[k' v'] d IH]; simpl; [lia|].
  destruct (String.eqb k' k); simpl; lia.
Qed.

(** The loop of [get_daily_playtime] over the dates it reads. *)
Lemma daily_loop_dates (date_of : nat -> string) (self : t) (indices : list nat)
    (acc : list (string * Z)) :
  let playtime_on date :=
    match daily_stats (stats_data self) !! date with
    | Some day => d_playtime day
    | None => 0%Z
    end in
  let r := fold_left
             (fun result_so_far i =>
                od_set (date_of i) (playtime_on (date_of i)) result_so_far)
             indices acc in
  (forall d, od_get d r =
     if decide (d ∈ map date_of indices) then Some (playtime_on d) else od_get d acc) /\
  (NoDup (map fst acc) -> NoDup (map fst r)) /\
  length r <= length acc + length indices /\
  (NoDup (map fst acc ++ map date_of indices) ->
   map fst r = map fst acc ++ map date_of indices).
Proof.
  cbn zeta. revert acc. induction indices as [|i indices IH]; intros acc; simpl.
  - split; [|split; [|split]]; [done|done|lia|].
    by rewrite app_nil_r.
  - destruct (IH (od_set (date_of i)
                    match daily_stats (stats_data self) !! date_of i with
                    | Some day => d_playtime day
                    | None => 0%Z
                    end acc)) as (Hget & Hnd & Hlen & Hkeys).
    split; [|split; [|split]].
    + intros d. rewrite Hget.
      destruct (decide (d ∈ map date_of indices)) as [Hin|Hin].
      * rewrite decide_True; [done | by right].
      * destruct (decide (date_of i = d)) as [<-|Hne].
        -- rewrite od_get_set_eq. rewrite decide_True; [done | by left].
        -- rewrite od_get_set_ne by done. rewrite decide_False; [done|].
           intros [?|?]%elem_of_cons; congruence.
    + intros H. by apply Hnd, od_set_NoDup.
    + pose proof (od_set_length_le (date_of i)
                    match daily_stats (stats_data self) !! date_of i with
                    | Some day => d_playtime day
                    | None => 0%Z
                    end acc). lia.
    + intros Hall. rewrite Hkeys; rewrite od_set_keys.
      * assert (E : od_get (date_of i) acc = None).
        { apply od_get_None_keys. intros Hin.
          apply NoDup_app in Hall as (_ & Hdisj & _).
          apply (Hdisj _ Hin). by left. }
        rewrite E. by rewrite <- app_assoc.
      * assert (E : od_get (date_of i) acc = None).
        { apply od_get_None_keys. intros Hin.
          apply NoDup_app in Hall as (_ & Hdisj & _).
          apply (Hdisj _ Hin). by left. }
        rewrite E. rewrite <- app_assoc. exact Hall.
Qed.

(** The loop when every date it computes is in range, and when one is
not. *)
Lemma daily_playtime_loop_returns (date_of : nat -> result string)
    (dates : nat -> string) (self : t) (indices : list nat)
    (acc : list (string * Z)) :
  (forall i, i ∈ indices -> date_of i = Ok (dates i)) ->
  daily_playtime_loop date_of self acc indices =
  Ok (fold_left
        (fun result_so_far i =>
           od_set (dates i)
             match daily_stats (stats_data self) !! dates i with
             | Some day => d_playtime day
             | None => 0%Z
             end result_so_far)
        indices acc).
Proof.
  revert acc. induction indices as [|i indices IH]; intros acc Hok; [done|].
  cbn [daily_playtime_loop fold_left]. rewrite (Hok i) by left. cbn [bind].
  apply IH. intros j Hj. apply Hok. by right.
Qed.

Lemma daily_playtime_loop_raises (date_of : nat -> result string)
    (self : t) (before after : list nat) (i : nat) (e : exn)
    (acc : list (string * Z)) :
  (forall j, j ∈ before -> exists d, date_of j = Ok d) ->
  date_of i = Raise e ->
  daily_playtime_loop date_of self acc (before ++ i :: after) = Raise e.
Proof.
  revert acc. induction before as [|j before IH]; intros acc Hok Hi.
  - cbn [app daily_playtime_loop]. by rewrite Hi.
  - cbn [app daily_playtime_loop].
    destruct (Hok j) as [d ->]; [left|]. cbn [bind].
    apply IH; [|done]. intros j' Hj'. apply Hok. by right.
Qed.

(** When every date that the loop computes is in the range of [datetime],
[get_daily_playtime(days)] returns: for each of these dates the result
holds the playtime of that day's bucket, or 0 when there is none; it holds
no other date and no date twice; and when the dates are distinct (the
clock does not pass midnight during the loop) it has exactly [days]
entries, in the order computed. When the date of an iteration leaves the
range, the exception leaves the call. *)
Theorem daily_playtime_entries (date_of : nat -> result string)
    (dates : nat -> string) (days : Z) (self : t) :
  let playtime_on date :=
    match daily_stats (stats_data self) !! date with
    | Some day => d_playtime day
    | None => 0%Z
    end in
  let computed := map dates (seq 0 (Z.to_nat days)) in
  ((forall i, i < Z.to_nat days -> date_of i = Ok (dates i)) ->
   exists r,
     get_daily_playtime date_of days self = Ok r /\
     (forall d, d ∈ computed -> od_get d r = Some (playtime_on d)) /\
     (forall d, d ∉ computed -> od_get d r = None) /\
     NoDup (map fst r) /\
     length r <= Z.to_nat days /\
     (NoDup computed -> map fst r = computed /\ length r = Z.to_nat days)) /\
  (forall i e,
     i < Z.to_nat days ->
     (forall j, j < i -> exists d, date_of j = Ok d) ->
     date_of i = Raise e ->
     get_daily_playtime date_of days self = Raise e).
Proof.
  cbn zeta. unfold get_daily_playtime. split.
  - intros Hok.
    rewrite (daily_playtime_loop_returns date_of dates).
    2:{ intros i Hi%elem_of_seq. apply Hok. lia. }
    eexists. split; [done|].
    destruct (daily_loop_dates dates self (seq 0 (Z.to_nat days)) [])
      as (Hget & Hnd & Hlen & Hkeys). cbn zeta in *.
    split; [|split; [|split; [|split]]].
    + intros d Hd. rewrite Hget. by rewrite decide_True.
    + intros d Hd. rewrite Hget. by rewrite decide_False.
    + apply Hnd. constructor.
    + rewrite length_seq in Hlen. simpl in Hlen. lia.
    + intros Hdistinct. specialize (Hkeys Hdistinct). simpl in Hkeys.
      split; [done|].
      rewrite <- (length_map fst), Hkeys, length_map, length_seq. done.
  - intros i e Hi Hbefore Hraise.
    assert (Hsplit : seq 0 (Z.to_nat days) =
                     seq 0 i ++ i :: seq (S i) (Z.to_nat days - S i)).
    { replace (Z.to_nat days) with (i + S (Z.to_nat days - S i)) at 1 by lia.
      by rewrite seq_app. }
    rewrite Hsplit. apply daily_playtime_loop_raises; [|done].
    intros j Hj%elem_of_seq. apply Hbefore. lia.
Qed.

End DailyPlaytime.

(** ** Managers reached from a fresh one *)

Section Reached.
Import ProfileManager.


(** On every manager reached from a fresh one, [high_scores] has an entry
for a game exactly when the stored high score of the game is positive, and
the entry is that high score. *)
Theorem reached_high_scores_mirror (ops : list op) (profile_name now g : string) :
  let self := run_ops ops (fresh profile_name now) in
  let h := gs_high_score (get_game_stats g self) in
  (0 <= h)%Z /\
  high_scores (stats_data self) !! g = if (0 <? h)%Z then Some h else None.
Proof.
  destruct (run_ops_consistent ops _ (fresh_consistent profile_name now))
    as (_ & _ & _ & _ & _ & Hrec & Hhs).
  cbn zeta. unfold get_game_stats. split.
  - by apply found_high_score_nonneg.
  - rewrite Hhs. unfold mirrored_high_score.
    by destruct (od_get g _).
Qed.

(** On every manager reached from a fresh one: a game has one record,
every record has at least one session and a time stamp, and
[achievement_count] is the number of achievements. *)
Theorem reached_records_well_formed (ops : list op) (profile_name now : string) :
  let self := run_ops ops (fresh profile_name now) in
  NoDup (map fst (game_stats (stats_data self))) /\
  Forall (fun kv => 1 <= gs_sessions kv.2 /\ is_Some (gs_last_played kv.2))
    (game_stats (stats_data self)) /\
  achievement_count (stats_data self) = size (achievements (profile_data self)).
Proof.
  destruct (run_ops_consistent ops _ (fresh_consistent profile_name now))
    as (_ & Hach & _ & _ & Hnd & Hrec & _).
  cbn zeta. split; [done|]. split; [|done].
  eapply Forall_impl; [exact Hrec|]. intros kv (_ & ? & ? & _). done.
Qed.

(** On every manager reached from a fresh one the favorites are distinct,
so [remove_favorite] leaves no copy behind: the game is no favorite after
it. [add_favorite] makes the game a favorite on any manager. *)
Theorem reached_favorites_distinct (ops : list op) (profile_name now : string)
    (at_time game_id : string) :
  let self := run_ops ops (fresh profile_name now) in
  NoDup (favorites (profile_data self)) /\
  is_favorite game_id (remove_favorite at_time game_id self) = false /\
  is_favorite game_id (add_favorite at_time game_id self) = true.
Proof.
  destruct (run_ops_consistent ops _ (fresh_consistent profile_name now))
    as (Hfav & _).
  cbn zeta. split; [done|]. split.
  - unfold is_favorite, remove_favorite.
    destruct (str_in game_id (favorites (profile_data (run_ops ops _)))) eqn:E;
      [|done].
    cbn. apply not_true_is_false. intros H%str_in_elem_of.
    by apply (list_remove_gone game_id _ Hfav).
  - unfold is_favorite, add_favorite.
    destruct (str_in game_id (favorites (profile_data (run_ops ops _)))) eqn:E;
      [done|].
    cbn. apply str_in_app_self.
Qed.

(** On every manager reached from a fresh one, [get_top_games] returns for
every sort key and every limit, and what it returns are records of
[game_stats], each at most once. *)
Theorem reached_top_games_return (ops : list op) (profile_name now : string)
    (limit : Z) (sort_by : string) :
  let self := run_ops ops (fresh profile_name now) in
  exists top,
    get_top_games limit sort_by self = Ok top /\
    top ⊆ game_stats (stats_data self) /\
    NoDup (map fst top).
Proof.
  destruct (run_ops_consistent ops _ (fresh_consistent profile_name now))
    as (_ & _ & _ & _ & Hnd & Hrec & _).
  cbn zeta. set (self := run_ops ops (fresh profile_name now)) in *.
  assert (Htake : forall (l : list (string * game_stat)),
            l ≡ₚ game_stats (stats_data self) ->
            py_take limit l ⊆ game_stats (stats_data self) /\
            NoDup (map fst (py_take limit l))).
  { intros l Hl.
    assert (Hsub : py_take limit l `sublist_of` l).
    { unfold py_take. destruct (0 <=? limit)%Z; apply sublist_take. }
    split.
    - intros x Hx. rewrite <- Hl. by apply (sublist_subseteq _ _ Hsub).
    - apply (sublist_NoDup _ (map fst l)); [by rewrite Hl|].
      by apply (fmap_sublist fst). }
  unfold get_top_games. destruct (String.eqb sort_by "last_played").
  - assert (Hall : forallb (fun kv : string * game_stat =>
                      bool_decide (is_Some (gs_last_played kv.2)))
                     (game_stats (stats_data self)) = true).
    { apply forallb_forall. intros kv Hin%list_elem_of_In.
      rewrite Forall_forall in Hrec. destruct (Hrec kv Hin) as (_ & ? & _).
      by apply bool_decide_eq_true. }
    rewrite Hall, orb_true_r. eexists. split; [done|].
    apply Htake, sort_desc_perm.
  - eexists. split; [done|]. apply Htake, sort_desc_perm.
Qed.

End Reached.

(** ** Sessions, preferences, achievements, export *)

Section Operations.
Import ProfileManager.

Lemma last_played_step (now : string) (d score : Z) (st : game_stat) :
  gs_last_played (update_game_stat now d score st).1.1 = Some now.
Proof. reflexivity. Qed.

(** The record of a game after any run, starting without a record for
it: as many sessions as calls for the game, the sum of their durations as
playtime. *)
Theorem game_record_counts_its_sessions (g : string) (calls : list session)
    (self : t) :
  let mine := filter (fun c => s_game c = g) calls in
  let before := get_game_stats g self in
  let after := get_game_stats g (play_all calls self) in
  gs_sessions after = gs_sessions before + length mine /\
  gs_playtime after =
    (gs_playtime before + fold_right Z.add 0 (map s_duration mine))%Z /\
  gs_last_played after =
    match last mine with
    | Some c => Some (now_iso (s_clock c))
    | None => gs_last_played before
    end.
Proof.
  cbn zeta. revert self. induction calls as [|c calls IH]; intros self.
  - simpl. split; [lia|]. split; [lia|done].
  - change (play_all (c :: calls) self) with (play_all calls (play self c)).
    destruct (IH (play self c)) as (Hs & Hp & Hl).
    rewrite Hs, Hp, Hl. rewrite filter_cons, get_game_stats_play.
    destruct (decide (s_game c = g)) as [Hg|Hg].
    + rewrite sessions_step, playtime_step, last_played_step, last_cons.
      simpl. split; [lia|]. split; [lia|].
      by destruct (last (filter _ calls)).
    + done.
Qed.

(** What the hub records: every launch is a session with score 0. After
any number of such sessions, from a fresh manager, every game has high
score 0 and average score 0, and [high_scores] is empty. *)
Theorem hub_sessions_leave_scores_at_zero (calls : list session)
    (profile_name now g : string) :
  Forall (fun c => s_score c = 0%Z) calls ->
  let self := play_all calls (fresh profile_name now) in
  gs_high_score (get_game_stats g self) = 0%Z /\
  gs_average_score (get_game_stats g self) = NInt 0 /\
  high_scores (stats_data self) = ∅.
Proof.
  intros Hzero. cbn zeta.
  assert (H : forall self,
            gs_high_score (get_game_stats g self) = 0%Z ->
            gs_average_score (get_game_stats g self) = NInt 0 ->
            (forall g', gs_high_score (get_game_stats g' self) = 0%Z) ->
            high_scores (stats_data self) = ∅ ->
            gs_high_score (get_game_stats g (play_all calls self)) = 0%Z /\
            gs_average_score (get_game_stats g (play_all calls self)) = NInt 0 /\
            high_scores (stats_data (play_all calls self)) = ∅).
  { induction Hzero as [|c calls Hc _ IH]; intros self Hh Ha Hall He; [done|].
    change (play_all (c :: calls) self) with (play_all calls (play self c)).
    assert (Hstep : forall g', gs_high_score (get_game_stats g' (play self c)) = 0%Z).
    { intros g'. rewrite get_game_stats_play.
      destruct (decide (s_game c = g')); [|apply Hall].
      rewrite high_score_step, Hc, Hall. done. }
    apply IH; [apply Hstep| |apply Hstep|].
    - rewrite get_game_stats_play. destruct (decide (s_game c = g)); [|done].
      rewrite Hc. by rewrite average_step_zero.
    - unfold play. rewrite record_game_session_stats.
      destruct (record_session_stats_fields (s_clock c) (s_game c) (s_duration c)
                  (s_score c) (stats_data self)) as (_ & _ & _ & _ & -> & _).
      fold (get_game_stats (s_game c) self). rewrite Hall, Hc. done. }
  apply H; done.
Qed.

Lemma hub_sessions_leave_scores_at_zero_witness :
  let self := play_all [session_x 300 0; session_x 20 0]
                (fresh "default" "2026-01-05T11:00:00") in
  gs_high_score (get_game_stats "x" self) = 0%Z /\
  gs_average_score (get_game_stats "x" self) = NInt 0 /\
  high_scores (stats_data self) = ∅.
Proof.
  apply (hub_sessions_leave_scores_at_zero [session_x 300 0; session_x 20 0]
           "default" "2026-01-05T11:00:00" "x").
  repeat constructor.
Defined.

(** [set_preference] then [get_preference] gives the value set, whatever
the default; every other preference, the favorites, the achievements and
the statistics are as before. *)
Theorem preference_set_then_get (now key : string) (v : value) (self : t) :
  let self' := set_preference now key v self in
  (forall d, get_preference key d self' = v) /\
  (forall key' d, key' <> key ->
     get_preference key' d self' = get_preference key' d self) /\
  favorites (profile_data self') = favorites (profile_data self) /\
  achievements (profile_data self') = achievements (profile_data self) /\
  stats_data self' = stats_data self.
Proof.
  cbn zeta. unfold get_preference, set_preference. cbn.
  split; [|split; [|done]].
  - intros d. by rewrite lookup_insert_eq.
  - intros key' d Hne. by rewrite lookup_insert_ne.
Qed.

Lemma str_in_list_remove_other (other x : string) (l : list string) :
  other <> x -> str_in other (list_remove x l) = str_in other l.
Proof.
  intros Hne. induction l as [|y l IH]; simpl; [done|].
  destruct (String.eqb y x) eqn:E; simpl.
  - apply String.eqb_eq in E. subst y.
    apply String.eqb_neq in Hne. by rewrite Hne.
  - by rewrite IH.
Qed.

(** Adding or removing a favorite never touches the membership of another
game; adding a game that is no favorite puts it last and keeps the earlier
favorites in place, and removing it again gives back the list as it was. *)
Theorem favorite_add_then_remove (t1 t2 game_id : string) (self : t) :
  (forall other, other <> game_id ->
     is_favorite other (add_favorite t1 game_id self) = is_favorite other self /\
     is_favorite other (remove_favorite t2 game_id self) = is_favorite other self) /\
  (is_favorite game_id self = false ->
   favorites (profile_data (add_favorite t1 game_id self)) =
     favorites (profile_data self) ++ [game_id] /\
   favorites (profile_data
                (remove_favorite t2 game_id (add_favorite t1 game_id self)))
     = favorites (profile_data self)).
Proof.
  unfold is_favorite.
  assert (Hrm : forall l, str_in game_id l = false ->
            list_remove game_id (l ++ [game_id]) = l).
  { induction l as [|y l IH]; simpl.
    - by rewrite String.eqb_refl.
    - rewrite (String.eqb_sym game_id y).
      destruct (String.eqb y game_id); [done|]. simpl. intros H. by rewrite IH. }
  split.
  - intros other Hne. split.
    + unfold add_favorite.
      destruct (str_in game_id (favorites (profile_data self))); [done|].
      cbn [negb profile_data favorites _save_profile with_favorites stats_data].
      unfold str_in. rewrite existsb_app. simpl.
      apply String.eqb_neq in Hne. rewrite Hne. by rewrite !orb_false_r.
    + unfold remove_favorite.
      destruct (str_in game_id (favorites (profile_data self))); [|done].
      cbn [profile_data favorites _save_profile with_favorites stats_data].
      by apply str_in_list_remove_other.
  - intros Hno. split.
    + unfold add_favorite. by rewrite Hno.
    + unfold add_favorite. rewrite Hno. cbn [negb].
      unfold remove_favorite.
      cbn [profile_data favorites _save_profile with_favorites stats_data].
      rewrite str_in_app_self.
      cbn [profile_data favorites _save_profile with_favorites stats_data].
      by rewrite Hrm.
Qed.

Lemma favorite_add_then_remove_witness :
  favorites (profile_data (add_favorite "t1" "pong" (fresh "default" "t0"))) =
    favorites (profile_data (fresh "default" "t0")) ++ ["pong"] /\
  favorites (profile_data
     (remove_favorite "t2" "pong" (add_favorite "t1" "pong" (fresh "default" "t0"))))
    = favorites (profile_data (fresh "default" "t0")).
Proof.
  apply (proj2 (favorite_add_then_remove "t1" "t2" "pong" (fresh "default" "t0"))).
  reflexivity.
Defined.

(** [get_achievements(game_id)] for a game id that is not empty returns
exactly the achievements unlocked for that game; for no game id and for
the empty string it returns all of them; and an achievement is there right
after [unlock_achievement] unlocked it. *)
Theorem achievements_by_game (self : t) :
  (forall c rest id a,
     get_achievements (Some (String c rest)) self !! id = Some a <->
     achievements (profile_data self) !! id = Some a /\
     ach_game_id a = Some (String c rest)) /\
  get_achievements None self = achievements (profile_data self) /\
  get_achievements (Some EmptyString) self = achievements (profile_data self) /\
  (forall t1 t2 id c rest description,
     let r := unlock_achievement t1 t2 id (Some (String c rest)) description self in
     is_achievement_unlocked id r.2 = true /\
     (r.1 = true ->
      get_achievements (Some (String c rest)) r.2 !! id =
      Some {| unlocked_date := t1; ach_game_id := Some (String c rest);
              ach_description := description |})).
Proof.
  split; [|split; [done|split; [done|]]].
  - intros c rest id a. unfold get_achievements.
    by rewrite map_lookup_filter_Some.
  - intros t1 t2 id c rest description. cbn zeta.
    unfold unlock_achievement, is_achievement_unlocked.
    destruct (achievements (profile_data self) !! id) eqn:E; cbn.
    + split; [|done]. apply bool_decide_eq_true. rewrite E. by eexists.
    + split.
      * apply bool_decide_eq_true. rewrite lookup_insert_eq. by eexists.
      * intros _. apply map_lookup_filter_Some. by rewrite lookup_insert_eq.
Qed.

(** Importing an exported document into any manager gives it the exported
profile, with [last_active] set to the time of the import, and the
exported statistics; a document without one of the two keys leaves that
part of the manager alone. *)
Theorem import_restores_export (t1 t2 : string) (source target : t)
    (doc : export_doc) :
  let restored := import_profile t2 (export_profile t1 source) target in
  profile_data restored = _save_profile t2 (profile_data source) /\
  stats_data restored = stats_data source /\
  (doc_profile doc = None ->
   profile_data (import_profile t2 doc target) = profile_data target) /\
  (doc_stats doc = None ->
   stats_data (import_profile t2 doc target) = stats_data target).
Proof.
  cbn zeta. split; [done|]. split; [done|]. unfold import_profile. split.
  - intros ->. by destruct (doc_stats doc).
  - intros ->. by destruct (doc_profile doc).
Qed.

End Operations.

(** ** Instances on the sample player *)

Section OperationExamples.
Import ProfileManager.

Lemma top_games_ranking_witness :
  exists ranked,
    get_top_games 3 "playtime" sample_player = Ok (take (Z.to_nat 3) ranked) /\
    ranked ≡ₚ game_stats (stats_data sample_player) /\
    StronglySorted
      (fun a b => (numeric_field "playtime" b.2 <= numeric_field "playtime" a.2)%Q)
      ranked /\
    forall q : Q,
      filter (fun a => Qeq_bool (numeric_field "playtime" a.2) q = true) ranked =
      filter (fun a => Qeq_bool (numeric_field "playtime" a.2) q = true)
        (game_stats (stats_data sample_player)).
Proof.
  apply (top_games_ranking 3 "playtime" sample_player); [discriminate | lia].
Defined.

Lemma preference_set_then_get_witness :
  get_preference "layout" VNone
    (set_preference "t1" "theme" (VStr "neon") (fresh "default" "t0")) =
  get_preference "layout" VNone (fresh "default" "t0").
Proof.
  apply (proj1 (proj2 (preference_set_then_get "t1" "theme" (VStr "neon")
                         (fresh "default" "t0")))).
  discriminate.
Defined.

Lemma achievements_by_game_witness :
  get_achievements (Some "pong")
    (unlock_achievement "t1" "t2" "first_game" (Some "pong") "Played a game"
       (fresh "default" "t0")).2 !! "first_game" =
  Some {| unlocked_date := "t1"; ach_game_id := Some "pong";
          ach_description := "Played a game" |}.
Proof.
  apply (proj2 (proj2 (proj2 (proj2 (achievements_by_game (fresh "default" "t0"))))
                 "t1" "t2" "first_game" "p"%char "ong" "Played a game")).
  reflexivity.
Defined.

Lemma import_restores_export_witness :
  profile_data
    (import_profile "t2"
       {| doc_profile := None; doc_stats := Some (stats_data sample_player);
          doc_export_date := "t1"; doc_version := "2.0.0" |}
       (fresh "default" "t0")) =
  profile_data (fresh "default" "t0").
Proof.
  apply (proj1 (proj2 (proj2 (import_restores_export "t1" "t2" sample_player
                                (fresh "default" "t0") _)))).
  reflexivity.
Defined.

Lemma daily_playtime_entries_witness :
  let dates := fun i : nat => nth i ["2026-01-05"; "2026-01-04"] "2026-01-03" in
  exists r,
    get_daily_playtime (fun i => Ok (dates i)) 2 sample_player = Ok r /\
    map fst r = map dates (seq 0 (Z.to_nat 2)) /\
    length r = Z.to_nat 2.
Proof.
  cbn zeta.
  destruct (proj1 (daily_playtime_entries
                     (fun i => Ok (nth i ["2026-01-05"; "2026-01-04"] "2026-01-03"))
                     (fun i : nat => nth i ["2026-01-05"; "2026-01-04"] "2026-01-03")
                     2 sample_player))
    as (r & Hr & _ & _ & _ & _ & Hdistinct); [done|].
  exists r. split; [exact Hr|]. apply Hdistinct.
  apply NoDup_cons. split; [|apply NoDup_singleton].
  by intros [=]%list_elem_of_singleton.
Defined.


End OperationExamples.

(** ** Catalog merge: repeated merges, new files, settings *)

Section MergeAgain.
Import GameDiscovery.

Lemma merge_loop_inv (existing_games : list (value * game))
    (discovered_games acc merged : list game) :
  merge_loop existing_games acc discovered_games = Ok merged ->
  exists ms, merged = acc ++ ms /\
    Forall2 (fun d m => merge_entry existing_games d = Ok m) discovered_games ms.
Proof.
  revert acc. induction discovered_games as [|d ds IH]; intros acc; simpl.
  - intros [= <-]. exists []. by rewrite app_nil_r.
  - destruct (merge_entry existing_games d) as [m|e] eqn:E; simpl; [|done].
    intros H. destruct (IH _ H) as (ms & -> & Hall).
    exists (m :: ms). rewrite <- app_assoc. split; [done|]. by constructor.
Qed.

Lemma merge_loop_intro (existing_games : list (value * game))
    (discovered_games acc ms : list game) :
  Forall2 (fun d m => merge_entry existing_games d = Ok m) discovered_games ms ->
  merge_loop existing_games acc discovered_games = Ok (acc ++ ms).
Proof.
  intros H. revert acc. induction H as [|d m ds ms Hm _ IH]; intros acc; simpl.
  - by rewrite app_nil_r.
  - rewrite Hm. simpl. rewrite IH. by rewrite <- app_assoc.
Qed.

Lemma merge_with_config_inv (self : t) (on_disk : option config) (final : config) :
  merge_with_config self on_disk = Ok final ->
  exists existing_games merged,
    index_existing [] (existing_list on_disk) = Ok existing_games /\
    Forall2 (fun d m => merge_entry existing_games d = Ok m)
      (discovered_games self) merged /\
    final =
      {| cfg_games := Some merged;
         cfg_hub_settings :=
           Some (default default_hub_settings
                   (cfg_hub_settings (default empty_config on_disk)));
         cfg_rest := cfg_rest (default empty_config on_disk) |}.
Proof.
  unfold merge_with_config. fold (existing_list on_disk).
  destruct (index_existing [] (existing_list on_disk)) as [eg|e]; simpl; [|done].
  destruct (merge_loop eg [] (discovered_games self)) as [merged|e] eqn:E;
    simpl; [|done].
  intros [= <-]. apply merge_loop_inv in E as (ms & -> & Hall).
  by exists eg, ms.
Qed.

(** Overlaying the same discovery once more changes nothing. *)
Lemma overlay_again (existing discovered : game) :
  overlay (overlay existing discovered) discovered = overlay existing discovered.
Proof.
  apply map_eq. intros k. rewrite !overlay_lookup.
  destruct (is_user_field k); [done|]. by destruct (discovered !! k).
Qed.

Lemma overlay_self (discovered : game) : overlay discovered discovered = discovered.
Proof.
  apply map_eq. intros k. rewrite overlay_lookup.
  destruct (is_user_field k); [done|]. by destruct (discovered !! k).
Qed.

(** A merged entry is the discovered entry or an overlay with it, and it
has the [id] of the discovered entry when that has one. *)
Lemma merge_entry_shape (existing_games : list (value * game)) (d m : game) :
  merge_entry existing_games d = Ok m ->
  overlay m d = m /\ (is_Some (d !! "id") -> is_Some (m !! "id")).
Proof.
  unfold merge_entry.
  destruct (d !! "file") as [filename|]; [|done].
  destruct (hashable filename); [|done].
  destruct (dict_get filename existing_games) as [entry|].
  - assert (H : forall e, overlay (overlay e d) d = overlay e d /\
                  (is_Some (d !! "id") -> is_Some (overlay e d !! "id"))).
    { intros e. split; [apply overlay_again|].
      intros [i Hi]. rewrite overlay_lookup. cbn. rewrite Hi. by eexists. }
    destruct (entry !! "id"); simpl.
    + intros [= <-]. apply H.
    + destruct (d !! "id"); simpl; [|done]. intros [= <-]. apply H.
  - intros [= <-]. split; [apply overlay_self | done].
Qed.

Lemma keyed_by_name (n : string) (entry : game) (n' : string) :
  entry !! "file" = Some (VStr n') ->
  keyed_by (VStr n) entry = nonempty n' && String.eqb n' n.
Proof. intros H. unfold keyed_by. by rewrite H. Qed.

Lemma matched_entry_absent (n : string) (ms : list game) (names : list string) :
  Forall2 (fun m n' => m !! "file" = Some (VStr n')) ms names ->
  n ∉ names -> matched_entry (VStr n) ms = None.
Proof.
  induction 1 as [|m n' ms names Hm _ IH]; intros Hn; [done|].
  apply not_elem_of_cons in Hn as [Hne Hn].
  rewrite matched_entry_cons, IH by done.
  rewrite (keyed_by_name n m n' Hm).
  apply not_eq_sym, String.eqb_neq in Hne. rewrite Hne. by rewrite andb_false_r.
Qed.

Lemma matched_entry_empty_name (games : list game) :
  matched_entry (VStr EmptyString) games = None.
Proof.
  induction games as [|entry games IH]; [done|].
  rewrite matched_entry_cons, IH. unfold keyed_by.
  destruct (default (VStr EmptyString) (entry !! "file")) as [|b|z|q|s|l];
    unfold py_eq; cbn; rewrite ?andb_false_r; try done.
  by destruct s.
Qed.

(** Among entries with distinct file names, a name matches the entry that
has it, unless the name is empty: an entry with an empty name is not
stored in the lookup. *)
Lemma matched_entry_distinct (i : nat) (n : string) (m : game)
    (ms : list game) (names : list string) :
  Forall2 (fun m n' => m !! "file" = Some (VStr n')) ms names ->
  NoDup names ->
  ms !! i = Some m -> names !! i = Some n ->
  matched_entry (VStr n) ms = if nonempty n then Some m else None.
Proof.
  intros H. revert i. induction H as [|m' n' ms names Hm Hrest IH];
    intros i Hnd Hi Hn; [done|].
  apply NoDup_cons in Hnd as [Hfresh Hnd].
  rewrite matched_entry_cons. destruct i as [|i]; simpl in Hi, Hn.
  - injection Hi as ->. injection Hn as ->.
    rewrite (matched_entry_absent n ms names Hrest Hfresh).
    rewrite (keyed_by_name n m n Hm), String.eqb_refl, andb_true_r.
    done.
  - rewrite (IH i Hnd Hi Hn). destruct (nonempty n) eqn:E; [done|].
    rewrite (keyed_by_name n m' n' Hm).
    destruct (String.eqb n' n) eqn:E'; [|by rewrite andb_false_r].
    apply String.eqb_eq in E'. subst. by rewrite E.
Qed.

(** Merging the same discovery into the document that the merge produced
gives that document again: saving twice writes the same catalog. The
discovered entries have an [id] and distinct file names, as those of a
scan have. *)
Theorem merge_twice_is_merge_once (self : t) (on_disk : option config)
    (names : list string) (final : config) :
  Forall2 (fun d n => d !! "file" = Some (VStr n)) (discovered_games self) names ->
  NoDup names ->
  Forall (fun d => is_Some (d !! "id")) (discovered_games self) ->
  merge_with_config self on_disk = Ok final ->
  merge_with_config self (Some final) = Ok final.
Proof.
  intros Hnames Hnd Hids Hmerge.
  apply merge_with_config_inv in Hmerge as (eg & merged & Heg & Hall & ->).
  assert (Hfiles : Forall2 (fun m n => m !! "file" = Some (VStr n)) merged names).
  { clear -Hall Hnames. revert names Hnames.
    induction Hall as [|d m ds ms Hm _ IH]; intros names Hn.
    - apply Forall2_nil_inv_l in Hn as ->. constructor.
    - apply Forall2_cons_inv_l in Hn as (n & names' & Hd & Hn & ->).
      constructor; [|by apply IH].
      by rewrite (merge_entry_file _ _ _ Hm). }
  assert (Hok : Forall (fun e => existing_ok e = true) merged).
  { clear -Hfiles. induction Hfiles as [|m n ms names Hm _ IH]; constructor; [|done].
    unfold existing_ok. rewrite Hm. simpl. apply orb_true_r. }
  destruct (index_existing_ok merged [] Hok) as [eg2 Heg2].
  assert (Hagain : Forall2 (fun d m => merge_entry eg2 d = Ok m)
                     (discovered_games self) merged).
  { apply Forall2_same_length_lookup. split; [by eapply Forall2_length|].
    intros i d m Hd Hm.
    destruct (Forall2_lookup_l _ _ _ _ _ Hnames Hd) as (n & Hn & Hfile).
    pose proof (Forall2_lookup_lr _ _ _ _ _ _ Hall Hd Hm) as Hfirst.
    destruct (merge_entry_shape eg d m Hfirst) as [Hfix Hid].
    rewrite Forall_lookup in Hids. specialize (Hid (Hids i d Hd)).
    unfold merge_entry. rewrite Hfile. simpl.
    rewrite (index_existing_lookup _ _ _ (VStr n) Heg2).
    rewrite (matched_entry_distinct i n m merged names Hfiles Hnd Hm Hn).
    destruct (nonempty n) eqn:En.
    - destruct Hid as [i' ->]. simpl. by rewrite Hfix.
    - simpl. f_equal.
      (* an empty name is matched by nothing, in the first merge either *)
      unfold merge_entry in Hfirst. rewrite Hfile in Hfirst. simpl in Hfirst.
      rewrite (index_existing_lookup _ _ _ (VStr n) Heg) in Hfirst.
      assert (n = EmptyString) as -> by by destruct n.
      rewrite matched_entry_empty_name in Hfirst. simpl in Hfirst. congruence. }
  unfold merge_with_config. cbn [default from_option id].
  unfold existing_list in Heg2. cbn in Heg2. cbn [cfg_games default from_option id].
  rewrite Heg2. simpl.
  rewrite (merge_loop_intro eg2 (discovered_games self) [] merged Hagain).
  done.
Qed.

End MergeAgain.

Section MergeFrame.
Import GameDiscovery.

(** On entries the merge raises nothing for: a discovered entry whose file
name matches no existing entry enters the merged list exactly as
discovered; [hub_settings] are those of the document on disk, and the
defaults only when it has none; every other key of the document is kept. *)
Theorem merge_new_files_and_settings (self : t) (on_disk : option config) :
  Forall (fun d => discovered_ok d = true) (discovered_games self) ->
  Forall (fun e => existing_ok e = true) (existing_list on_disk) ->
  exists merged final,
    merge_with_config self on_disk = Ok final /\
    cfg_games final = Some merged /\
    (forall (i : nat) (discovered : game) (filename : value),
       discovered_games self !! i = Some discovered ->
       discovered !! "file" = Some filename ->
       matched_entry filename (existing_list on_disk) = None ->
       merged !! i = Some discovered) /\
    cfg_hub_settings final =
      Some (match on_disk ≫= cfg_hub_settings with
            | Some settings => settings
            | None => default_hub_settings
            end) /\
    cfg_rest final = match on_disk with
                     | Some document => cfg_rest document
                     | None => ∅
                     end.
Proof.
  intros Hd He.
  destruct (merge_with_config_ok self on_disk Hd He)
    as (eg & merged & final & Heg & Hmerge & Hgames & Hall).
  exists merged, final. split; [done|]. split; [done|].
  destruct (merge_with_config_inv self on_disk final Hmerge)
    as (eg' & merged' & _ & _ & ->).
  split; [|split].
  - intros i d filename Hi Hfile Hnone.
    destruct (Forall2_lookup_l _ _ _ _ _ Hall Hi) as (m & Hm & Hentry).
    rewrite Hm. f_equal.
    unfold merge_entry in Hentry. rewrite Hfile in Hentry.
    rewrite (index_existing_lookup _ _ _ filename Heg), Hnone in Hentry.
    simpl in Hentry. destruct (hashable filename); [congruence | done].
  - simpl. f_equal. destruct on_disk as [document|]; [|done].
    simpl. by destruct (cfg_hub_settings document).
  - simpl. by destruct on_disk.
Qed.

Lemma merge_new_files_and_settings_witness :
  exists merged final,
    merge_with_config sample_self sample_disk = Ok final /\
    cfg_games final = Some merged /\
    (forall (i : nat) (discovered : game) (filename : value),
       discovered_games sample_self !! i = Some discovered ->
       discovered !! "file" = Some filename ->
       matched_entry filename (existing_list sample_disk) = None ->
       merged !! i = Some discovered) /\
    cfg_hub_settings final =
      Some (match sample_disk ≫= cfg_hub_settings with
            | Some settings => settings
            | None => default_hub_settings
            end) /\
    cfg_rest final = match sample_disk with
                     | Some document => cfg_rest document
                     | None => ∅
                     end.
Proof.
  apply (merge_new_files_and_settings sample_self sample_disk).
  - repeat constructor.
  - repeat constructor.
Defined.

Lemma merge_twice_is_merge_once_witness :
  exists final,
    merge_with_config sample_self sample_disk = Ok final /\
    merge_with_config sample_self (Some final) = Ok final.
Proof.
  assert (Hd : Forall (fun d => discovered_ok d = true) (discovered_games sample_self))
    by repeat constructor.
  assert (He : Forall (fun e => existing_ok e = true) (existing_list sample_disk))
    by repeat constructor.
  destruct (merge_with_config_ok sample_self sample_disk Hd He)
    as (eg & merged & final & _ & Hmerge & _).
  exists final. split; [exact Hmerge|].
  apply (merge_twice_is_merge_once sample_self sample_disk
           ["pong.py"; "racer.py"] final).
  - repeat constructor.
  - apply NoDup_cons. split; [|apply NoDup_singleton].
    by intros [=]%list_elem_of_singleton.
  - repeat constructor; by eexists.
  - exact Hmerge.
Defined.

End MergeFrame.

(** ** The scan and the hub's refresh *)

Section ScanAccounting.
Import PyStr GameDiscovery.
Variable ast_parse : string -> option exn.
Variable print_error : string -> exn -> option exn.

(** One analysed file: it is opened, and when the analysis returns it
yields a game and no printed error, or a printed error and no game. *)
Lemma analyze_one (f : dir_entry) :
  let analysis := _analyze_game_file ast_parse print_error f in
  analysis.1 = Ok (game_of_analysis ast_parse print_error f) ->
  opened_files analysis.2 = [entry_name f] /\
  length (option_list (game_of_analysis ast_parse print_error f))
    + length (printed_errors analysis.2) = 1.
Proof.
  cbn zeta. unfold game_of_analysis, _analyze_game_file.
  destruct (analyze_try ast_parse f) as [g|e]; [done|].
  by destruct (print_error (entry_name f) e).
Qed.

Lemma analyze_all (fs : list dir_entry) :
  Forall (fun f => (_analyze_game_file ast_parse print_error f).1
                   = Ok (game_of_analysis ast_parse print_error f)) fs ->
  let games := omap (game_of_analysis ast_parse print_error) fs in
  let evs := fs ≫= fun f => (_analyze_game_file ast_parse print_error f).2 in
  opened_files evs = map entry_name fs /\
  length games + length (printed_errors evs) = length fs /\
  map (fun g : game => g !! "file") games
    `sublist_of` map (fun f => Some (VStr (entry_name f))) fs.
Proof.
  cbn zeta. induction 1 as [|f fs Hf _ (Ho & Hl & Hs)]; [by repeat split|].
  destruct (analyze_one f Hf) as [Hopen Hcount]. cbn zeta in *.
  pose proof (proj1 (analyze_names ast_parse print_error f)) as Hfile.
  rewrite bind_cons, omap_cons_option. unfold opened_files, printed_errors in *.
  rewrite !omap_app, !length_app, Hopen, Ho.
  split; [done|].
  destruct (game_of_analysis ast_parse print_error f) as [g|]; simpl in *.
  - split; [lia|]. rewrite (proj1 (Hfile g eq_refl)). by constructor.
  - split; [lia|]. by constructor.
Qed.

(** When the error line of every file of the listing can be printed, the
scan returns and accounts for every file: it opens exactly the files it
does not skip, in listing order, each once; every one of them gives either
a game or a printed error, never both and never neither; the games come in
listing order; and the object remembers them. *)
Theorem scan_accounts_for_every_file (self : t) (files : list dir_entry) :
  (forall f e, f ∈ files -> print_error (entry_name f) e = None) ->
  let r := scan_games_folder ast_parse print_error self (Some files) in
  let candidates := filter (fun f => analyzed f = true) files in
  exists games,
    r.1.1 = Ok games /\
    opened_files r.2 = map entry_name candidates /\
    length games + length (printed_errors r.2) = length candidates /\
    map (fun g : game => g !! "file") games
      `sublist_of` map (fun f => Some (VStr (entry_name f))) candidates /\
    discovered_games r.1.2 = games.
Proof.
  intros Hprint. cbn zeta.
  assert (Hret : Forall (fun f => (_analyze_game_file ast_parse print_error f).1
                                  = Ok (game_of_analysis ast_parse print_error f))
                   (filter (fun f => analyzed f = true) files)).
  { apply Forall_forall. intros f [_ Hf]%list_elem_of_filter.
    apply analyze_returns. intros e. by apply Hprint. }
  unfold scan_games_folder. rewrite scan_loop_returns by done.
  cbn [fst snd app].
  destruct (analyze_all _ Hret) as (Ho & Hl & Hs).
  eexists. split; [done|]. done.
Qed.

(** Refreshing from a discovery object that has discovered nothing, when
the games folder does not exist, writes a catalog without games: every
existing entry is dropped, with its playtime and high score. *)
Theorem refresh_without_folder_empties_catalog (on_disk : option config) :
  Forall (fun e => existing_ok e = true) (existing_list on_disk) ->
  exists config,
    _refresh_games ast_parse print_error {| discovered_games := [] |} None on_disk
      = Ok ([], {| discovered_games := [] |}, config) /\
    cfg_games config = Some [].
Proof.
  intros He. unfold _refresh_games, save_updated_config. cbn.
  destruct (merge_with_config_ok {| discovered_games := [] |} on_disk
              ltac:(constructor) He)
    as (eg & merged & final & _ & Hmerge & Hgames & Hall).
  apply Forall2_nil_inv_l in Hall as ->.
  rewrite Hmerge. cbn. rewrite Hgames. by exists final.
Qed.

End ScanAccounting.

(** ** What the extraction functions can return *)

Section ExtractionRanges.
Import PyStr GameDiscovery.

Lemma rfind_char_suffix (s : string) :
  rfind_char "." (s +:+ ".py") = Some (String.length s).
Proof.
  induction s as [|c s IH]; [done|].
  change (rfind_char "." (String c s +:+ ".py"))
    with (match rfind_char "." (s +:+ ".py") with
          | Some i => Some (S i)
          | None => if Ascii.eqb c "." then Some O else None
          end).
  by rewrite IH.
Qed.

Lemma substring_prefix (s rest : string) :
  substring 0 (String.length s) (s +:+ rest) = s.
Proof.
  induction s as [|c s IH]; simpl.
  - by destruct rest.
  - by rewrite IH.
Qed.

Lemma length_append (s rest : string) :
  String.length (s +:+ rest) = String.length s + String.length rest.
Proof. induction s as [|c s IH]; simpl; [done | by rewrite IH]. Qed.

Lemma stem_py (s : string) : s <> EmptyString -> stem (s +:+ ".py") = s.
Proof.
  intros Hs. unfold stem. rewrite rfind_char_suffix, length_append.
  assert (0 < String.length s) by (destruct s; [done | simpl; lia]).
  replace ((0 <? String.length s) &&
           (String.length s <? String.length s + String.length ".py" - 1))
    with true.
  - apply substring_prefix.
  - symmetry. apply andb_true_iff. split; apply Nat.ltb_lt; simpl; lia.
Qed.

(** The entry built for a file [s.py] with [s] not empty has [s] as its
id, also when [s] itself contains dots, and its thumbnail path is built
from [s]; so two files with such names never get the same id. The file
named [.py] alone keeps its whole name as id, and that is also the id of
the file [.py.py]: these two files share an id. *)
Theorem discovered_id_is_file_name_without_suffix (s content : string) :
  s <> EmptyString ->
  game_info (s +:+ ".py") content !! "id" = Some (VStr s) /\
  game_info (s +:+ ".py") content !! "thumbnail" =
    Some (VStr ("assets/thumbnails/" +:+ s +:+ ".png")) /\
  (forall s' content', s' <> EmptyString ->
     game_info (s +:+ ".py") content !! "id" =
     game_info (s' +:+ ".py") content' !! "id" -> s = s') /\
  game_info ".py" content !! "id" = Some (VStr ".py") /\
  game_info ".py.py" content !! "id" = Some (VStr ".py").
Proof.
  intros Hs.
  assert (Hid : forall n c, game_info n c !! "id" = Some (VStr (stem n)))
    by reflexivity.
  assert (Hth : forall n c, game_info n c !! "thumbnail" =
            Some (VStr ("assets/thumbnails/" +:+ stem n +:+ ".png")))
    by reflexivity.
  rewrite Hth, !Hid, stem_py by done.
  split; [done|]. split; [done|]. split; [|done].
  intros s' content' Hs'. rewrite Hid, stem_py by done. congruence.
Qed.

(** [_detect_category] returns one of its ten category names on every
text, and so does the entry built for a file. *)
Theorem detect_category_range (name content : string) :
  _detect_category content ∈ categories /\
  game_info name content !! "category" = Some (VStr (_detect_category content)).
Proof.
  split; [|reflexivity].
  unfold _detect_category, categories. cbn zeta.
  repeat match goal with
         | |- context [if ?b then _ else _] => destruct b
         end;
    repeat first [apply list_elem_of_here | apply list_elem_of_further].
Qed.

Lemma set_add_NoDup (x : string) (l : list string) :
  NoDup l -> NoDup (set_add x l).
Proof.
  intros H. unfold set_add.
  destruct (GameDiscovery.str_in x l) eqn:E; [done|].
  apply NoDup_app. split; [done|]. split; [|apply NoDup_singleton].
  intros y Hy ->%list_elem_of_singleton.
  assert (GameDiscovery.str_in x l = true); [|congruence].
  unfold GameDiscovery.str_in. apply existsb_exists. exists x.
  split; [by apply list_elem_of_In | apply String.eqb_refl].
Qed.

Lemma set_add_elem_of (x y : string) (l : list string) :
  y ∈ set_add x l -> y = x \/ y ∈ l.
Proof.
  unfold set_add. destruct (GameDiscovery.str_in x l); [by right|].
  intros [H| ->%list_elem_of_singleton]%elem_of_app; [by right | by left].
Qed.

Lemma requirements_loop_inv (lines requirements : list string) :
  NoDup requirements ->
  (forall m, m ∈ standard_modules -> m ∉ requirements) ->
  NoDup (requirements_loop requirements lines) /\
  (forall m, m ∈ standard_modules -> m ∉ requirements_loop requirements lines).
Proof.
  revert requirements.
  induction lines as [|line lines IH]; intros req Hnd Hstd; [done|].
  cbn [requirements_loop]. cbn zeta.
  repeat match goal with
         | |- context [if ?b then _ else _] => destruct b eqn:?
         end; try (by apply IH).
  apply IH; [by apply set_add_NoDup|].
  intros m Hm [-> | Hin]%set_add_elem_of; [|by apply (Hstd m)].
  match goal with
  | H : negb (GameDiscovery.str_in ?p ?std) = true |- _ =>
      apply negb_true_iff in H;
      assert (GameDiscovery.str_in p std = true); [|congruence]
  end.
  unfold GameDiscovery.str_in. apply existsb_exists. eexists.
  split; [apply list_elem_of_In, Hm | apply String.eqb_refl].
Qed.

(** [_extract_requirements] lists no package twice and never lists one of
os, sys, random, math, time, whatever the text imports. *)
Theorem requirements_distinct_without_standard_modules (content : string) :
  NoDup (_extract_requirements content) /\
  (forall m, m ∈ standard_modules -> m ∉ _extract_requirements content).
Proof.
  unfold _extract_requirements. apply requirements_loop_inv.
  - apply NoDup_singleton.
  - intros m Hm ->%list_elem_of_singleton. revert Hm.
    unfold standard_modules. rewrite !elem_of_cons, elem_of_nil.
    intros [?|[?|[?|[?|[?|[]]]]]]; discriminate.
Qed.

(** The tags of [_generate_tags] are taken from its seven tags in the
order it tests them, each at most once. *)
Theorem generate_tags_in_vocabulary_order (content : string) :
  _generate_tags content `sublist_of` tag_vocabulary /\
  NoDup (_generate_tags content).
Proof.
  assert (Hsub : _generate_tags content `sublist_of` tag_vocabulary).
  { unfold _generate_tags, tag_vocabulary. cbn zeta.
    repeat match goal with
           | |- context [if ?b then _ else _] => destruct b
           end;
      cbn [app take];
      repeat first [apply sublist_nil | apply sublist_skip | apply sublist_cons]. }
  split; [done|].
  apply (sublist_NoDup _ tag_vocabulary); [|done]. unfold tag_vocabulary.
  compute_done.
Qed.

End ExtractionRanges.

(** ** The description of a file with a documentation block *)

Section Description.
Import PyStr GameDiscovery.

Lemma split_on_text_of (lines : list string) :
  lines <> [] ->
  Forall (fun l => mem_char newline l = false) lines ->
  split_on newline (text_of lines) = lines.
Proof.
  destruct lines as [|l lines]; [done|]. intros _ H.
  by apply split_on_join.
Qed.

Lemma docstring_scan_before (acc before rest : list string) :
  Forall (fun l => is_delim_start (strip l) = false) before ->
  docstring_scan false acc (before ++ rest) = docstring_scan false acc rest.
Proof.
  induction 1 as [|l before Hl _ IH]; [done|].
  cbn [app docstring_scan]. cbn zeta. by rewrite Hl.
Qed.

Lemma docstring_scan_inside (acc body rest : list string) :
  Forall (fun l => is_delim_start (strip l) = false /\
                   is_delim_end (strip l) = false) body ->
  docstring_scan true acc (body ++ rest) =
  docstring_scan true (acc ++ map strip body) rest.
Proof.
  intros H. revert acc. induction H as [|l body [Hs He] _ IH]; intros acc.
  - simpl. by rewrite app_nil_r.
  - cbn [app docstring_scan map]. cbn zeta. rewrite Hs, He, IH.
    by rewrite <- app_assoc.
Qed.

(** An ASCII text whose first line starting with three quotes is three quotes
alone, followed by lines that neither start nor end with three quotes and
then by a line that starts with three quotes: the description is those
lines between, each stripped, joined by single spaces, whatever comes
before and after the block. *)
Theorem description_is_the_documentation_block
    (before body rest : list string) (opening closing : string) :
  let lines := before ++ opening :: body ++ closing :: rest in
  Forall (fun l => isascii l = true) lines ->
  Forall (fun l => mem_char newline l = false) lines ->
  Forall (fun l => is_delim_start (strip l) = false) before ->
  strip opening = triple dquote \/ strip opening = triple squote ->
  Forall (fun l => is_delim_start (strip l) = false /\
                   is_delim_end (strip l) = false) body ->
  body <> [] ->
  is_delim_start (strip closing) = true ->
  _extract_description (text_of lines) = join " " (map strip body).
Proof.
  cbn zeta. intros _ Hnl Hbefore Hopen Hbody Hne Hclose.
  unfold _extract_description. cbn zeta.
  rewrite split_on_text_of; [|by destruct before|done].
  rewrite docstring_scan_before by done.
  assert (Hscan : docstring_scan false [] (opening :: body ++ closing :: rest)
                  = map strip body).
  { cbn [docstring_scan]. cbn zeta.
    assert (Ho : is_delim_start (strip opening) = true /\
                 strip (drop 3 (strip opening)) = EmptyString)
      by (destruct Hopen as [-> | ->]; done).
    destruct Ho as [-> ->]. cbn [nonempty andb].
    rewrite docstring_scan_inside by done.
    cbn [docstring_scan app]. cbn zeta. by rewrite Hclose. }
  rewrite Hscan. destruct body; done.
Qed.

(** In an ASCII text, a block opened and closed on one line, as in a
one-line documentation string: the text between the quotes is not taken, the opening line only
switches the scan on, and when no later line starts or ends with three
quotes the description is every line after it, stripped and joined by
single spaces. *)
Theorem description_after_one_line_block
    (before rest : list string) (opening : string) :
  let lines := before ++ opening :: rest in
  Forall (fun l => isascii l = true) lines ->
  Forall (fun l => mem_char newline l = false) lines ->
  Forall (fun l => is_delim_start (strip l) = false) before ->
  is_delim_start (strip opening) = true ->
  is_delim_end (strip (drop 3 (strip opening))) = true ->
  Forall (fun l => is_delim_start (strip l) = false /\
                   is_delim_end (strip l) = false) rest ->
  rest <> [] ->
  _extract_description (text_of lines) = join " " (map strip rest).
Proof.
  cbn zeta. intros _ Hnl Hbefore Hstart Hend Hrest Hne.
  unfold _extract_description. cbn zeta.
  rewrite split_on_text_of; [|by destruct before|done].
  rewrite docstring_scan_before by done.
  assert (Hscan : docstring_scan false [] (opening :: rest) = map strip rest).
  { cbn [docstring_scan]. cbn zeta. rewrite Hstart, Hend.
    rewrite andb_false_r.
    rewrite <- (app_nil_r rest) at 1.
    by rewrite docstring_scan_inside. }
  rewrite Hscan. destruct rest; done.
Qed.

End Description.

Section DescriptionExample.
Import PyStr GameDiscovery.

Lemma description_is_the_documentation_block_witness :
  _extract_description
    (text_of (["#!/usr/bin/env python3"] ++
              triple dquote ::
              ["Pong - a paddle game"; "  Part of the hub  "] ++
              triple dquote :: ["import pygame"]))
  = join " " (map strip ["Pong - a paddle game"; "  Part of the hub  "]).
Proof.
  apply (description_is_the_documentation_block
           ["#!/usr/bin/env python3"]
           ["Pong - a paddle game"; "  Part of the hub  "]
           ["import pygame"] (triple dquote) (triple dquote)).
  - repeat constructor.
  - repeat constructor.
  - repeat constructor.
  - by left.
  - repeat constructor.
  - discriminate.
  - reflexivity.
Defined.

Lemma description_after_one_line_block_witness :
  _extract_description
    (text_of (["#!/usr/bin/env python3"] ++
              (triple dquote +:+ "Pong." +:+ triple dquote) ::
              ["import pygame"; "score = 0"]))
  = join " " (map strip ["import pygame"; "score = 0"]).
Proof.
  apply (description_after_one_line_block
           ["#!/usr/bin/env python3"] ["import pygame"; "score = 0"]
           (triple dquote +:+ "Pong." +:+ triple dquote)).
  - repeat constructor.
  - repeat constructor.
  - repeat constructor.
  - reflexivity.
  - reflexivity.
  - repeat constructor.
  - discriminate.
Defined.

End DescriptionExample.

(** ** Instances on the sample folder *)

Section DiscoveryExamples.
Import PyStr GameDiscovery.

(** C7. Counterexample to the claim as stated: the folder holds two valid
files and one that does not parse, and standard output cannot take the
error line for the bad file. The exception of [print] leaves the scan; the
file listed after the bad one is never opened, no game is returned or
stored and no error is recorded. *)
Lemma unprintable_error_aborts_scan :
  let r := scan_games_folder toy_parse print_unless_broken
             {| discovered_games := [] |}
             (Some [pong_file; broken_file; racer_file]) in
  r.1.1 = Raise UnicodeEncodeError /\
  discovered_games r.1.2 = [] /\
  opened_files r.2 = ["pong.py"; "broken.py"] /\
  printed_errors r.2 = [].
Proof. cbn zeta. repeat split; vm_compute; reflexivity. Qed.

Lemma scan_aborts_when_error_cannot_be_printed_witness :
  let r := scan_games_folder toy_parse print_unless_broken sample_self
             (Some ([pong_file; racer_file] ++ broken_file :: [init_file])) in
  r.1.1 = Raise UnicodeEncodeError /\
  r.1.2 = sample_self /\
  opened_files r.2 =
    map entry_name [pong_file; racer_file] ++ [entry_name broken_file] /\
  printed_errors r.2 = [].
Proof.
  apply (scan_aborts_when_error_cannot_be_printed toy_parse print_unless_broken
           sample_self [pong_file; racer_file] [init_file] broken_file
           broken_text SyntaxError UnicodeEncodeError).
  - repeat constructor.
  - constructor; [|constructor; [|constructor]].
    + exists pong_text. split; [reflexivity | vm_compute; reflexivity].
    + exists racer_text. split; [reflexivity | vm_compute; reflexivity].
  - reflexivity.
  - vm_compute; reflexivity.
  - reflexivity.
Defined.

Lemma scan_survives_unparsable_file_witness :
  let r := scan_games_folder toy_parse print_all {| discovered_games := [] |}
             (Some [pong_file; broken_file; racer_file]) in
  exists games,
    r.1.1 = Ok games /\
    games ≡ₚ [game_info "pong.py" pong_text; game_info "racer.py" racer_text] /\
    length games = 2 /\
    discovered_games r.1.2 = games /\
    printed_errors r.2 = [("broken.py", SyntaxError)].
Proof.
  apply (scan_survives_unparsable_file toy_parse print_all
           {| discovered_games := [] |}
           [pong_file; broken_file; racer_file] pong_file racer_file broken_file
           pong_text racer_text broken_text SyntaxError).
  - apply perm_skip, perm_swap.
  - repeat constructor.
  - reflexivity.
  - vm_compute; reflexivity.
  - reflexivity.
  - vm_compute; reflexivity.
  - reflexivity.
  - vm_compute; reflexivity.
  - reflexivity.
Defined.

Lemma scan_accounts_for_every_file_witness :
  let r := scan_games_folder toy_parse print_all {| discovered_games := [] |}
             (Some sample_folder) in
  let candidates := filter (fun f => analyzed f = true) sample_folder in
  exists games,
    r.1.1 = Ok games /\
    opened_files r.2 = map entry_name candidates /\
    length games + length (printed_errors r.2) = length candidates /\
    map (fun g : game => g !! "file") games
      `sublist_of` map (fun f => Some (VStr (entry_name f))) candidates /\
    discovered_games r.1.2 = games.
Proof.
  apply (scan_accounts_for_every_file toy_parse print_all
           {| discovered_games := [] |} sample_folder).
  reflexivity.
Defined.

Lemma refresh_without_folder_empties_catalog_witness :
  exists config,
    _refresh_games toy_parse print_all {| discovered_games := [] |} None
      sample_disk
      = Ok ([], {| discovered_games := [] |}, config) /\
    cfg_games config = Some [].
Proof.
  apply (refresh_without_folder_empties_catalog toy_parse print_all sample_disk).
  repeat constructor.
Defined.

Lemma discovered_id_is_file_name_without_suffix_witness :
  game_info ("pong" +:+ ".py") pong_text !! "id" = Some (VStr "pong").
Proof.
  apply (proj1 (discovered_id_is_file_name_without_suffix "pong" pong_text
                  ltac:(discriminate))).
Defined.

End DiscoveryExamples.

(** ** Worked examples *)

Section Examples.
Import PyStr GameDiscovery ProfileManager.


Lemma merge_drops_undiscovered_witness :
  exists merged final,
    merge_with_config sample_self sample_disk = Ok final /\
    cfg_games final = Some merged /\
    map (fun m : game => m !! "file") merged =
      map (fun d : game => d !! "file") (discovered_games sample_self) /\
    forall (entry : game) (filename : value),
      entry ∈ existing_list sample_disk ->
      entry !! "file" = Some filename ->
      (forall d, d ∈ discovered_games sample_self -> d !! "file" <> Some filename) ->
      (entry ∉ merged) /\
      (forall m, m ∈ merged -> m !! "file" <> Some filename).
Proof.
  apply (merge_drops_undiscovered sample_self sample_disk).
  - repeat constructor; vm_compute; reflexivity.
  - repeat constructor; vm_compute; reflexivity.
Defined.

(** The sample merge, evaluated: the matched entry keeps its user data and
its extra field and takes the discovered title; the entry of the deleted
file is gone; the new file comes in as discovered. *)
Example merge_sample :
  exists final pong racer,
    merge_with_config sample_self sample_disk = Ok final /\
    cfg_games final = Some [pong; racer] /\
    pong !! "playtime" = Some (VInt 120) /\
    pong !! "high_score" = Some (VInt 9) /\
    pong !! "last_played" = Some (VStr "2025-12-31T18:00:00") /\
    pong !! "completion_rate" = Some (VFloat (1 # 2)) /\
    pong !! "favorite" = Some (VBool true) /\
    pong !! "title" = Some (VStr "Pong Deluxe") /\
    pong !! "category" = Some (VStr "racing") /\
    racer = game_info "racer.py" racer_text /\
    racer !! "playtime" = Some (VInt 0).
Proof.
  do 3 eexists. split; [vm_compute; reflexivity|].
  repeat split; vm_compute; reflexivity.
Qed.

Lemma scan_missing_folder_and_skipped_names_witness :
  let r := scan_games_folder toy_parse print_all sample_self (Some sample_folder) in
  (("__init__.py" : string) ∉ opened_files r.2) /\
  (forall e, (("__init__.py" : string), e) ∉ printed_errors r.2) /\
  (forall games g, r.1.1 = Ok games -> g ∈ games ->
     g !! "file" <> Some (VStr "__init__.py")).
Proof.
  apply (proj2 (scan_missing_folder_and_skipped_names toy_parse print_all sample_self)
           sample_folder "__init__.py").
  reflexivity.
Defined.


(** The sample scan, evaluated: two games, in listing order, one error,
and only the three analysed files were opened. *)
Example scan_sample :
  scan_games_folder toy_parse print_all {| discovered_games := [] |}
    (Some sample_folder) =
  (Ok [game_info "pong.py" pong_text; game_info "racer.py" racer_text],
   sample_self,
   [EvOpen "pong.py"; EvOpen "broken.py"; EvPrintError "broken.py" SyntaxError;
    EvOpen "racer.py"]).
Proof. vm_compute; reflexivity. Qed.


(** The two sessions of the specification's scenario. *)
Example two_sessions_scenario :
  let self := play_all [session_x 300 100; session_x 600 300]
                (fresh "default" "2026-01-05T11:00:00") in
  total_playtime (stats_data self) = 900%Z /\
  games_played (stats_data self) = 2 /\
  gs_playtime (get_game_stats "x" self) = 900%Z /\
  gs_sessions (get_game_stats "x" self) = 2 /\
  gs_high_score (get_game_stats "x" self) = 300%Z /\
  (number_value (gs_average_score (get_game_stats "x" self)) == 200)%Q.
Proof. repeat split; vm_compute; reflexivity. Qed.

Example python_string_primitives :
  strip "  # Title: Foo  " = "# Title: Foo" /\
  title (replace_char "_" " " "super_pixel_runner2d") = "Super Pixel Runner2D" /\
  split_on ":" "a:b:c" = ["a"; "b"; "c"] /\
  split1 ":" "a:b:c" = ["a"; "b:c"] /\
  split_ws "  from  a.b import c " = ["from"; "a.b"; "import"; "c"] /\
  stem "a.b.py" = "a.b" /\ stem ".py" = ".py" /\ stem "x." = "x." /\
  find "TITLE" "abTITLE" = Some 2 /\
  endswith "abc'''" "'''" = true /\
  drop_last 3 "abc'''" = "abc".
Proof. repeat split; reflexivity. Qed.

End Examples.
